(** * Sockeye encoders and initializers: a shallow embedding

    The development follows [sockeye/encoder.py] and [sockeye/initializer.py].
    Both files only declare a symbolic computation graph (MXNet symbols); no
    numeric code runs when an encoder is built or when [encode] is called.
    The embedding therefore represents

    - a symbol as a first-order term ([Symbol]) whose constructors are the
      MXNet operators the two files call, with the keyword arguments the
      source passes;
    - Python exceptions as the [Raise] branch of [Py.result];
    - the module logger as an explicit list of records threaded through the
      constructors ([Py.M]);
    - the [Encoder] interface as a record of methods, so that a list of
      encoders of different classes can be held by [EncoderSequence];
    - the cell variables that the closures of [TransformerEncoder.__init__]
      capture as a finite map from variable names to objects.

    What lies outside the two files (the constants, [sockeye.rnn],
    [sockeye.layers], [mx.rnn], numpy's random numbers and decomposition) is
    taken as a parameter or represented by the arguments it is called with.
    The values that [PositionalEncodingInitializer] writes are floating-point
    sines and cosines and are not computed here: the positional table is any
    array of the declared shape. *)

From Stdlib Require Import ZArith List String Ascii Bool Lia Floats.
From stdpp Require Import base option list strings gmap pretty.

Set Warnings "-inexact-float".

Open Scope Z_scope.
Open Scope string_scope.

(** ** The Python runtime: exceptions, results and the logger *)

Module Py.

Inductive exn : Type :=
| SockeyeError (msg : string)
| ValueError (msg : string)
| AssertionError (msg : string)
| IndexError (msg : string)
| ZeroDivisionError (msg : string)
| NameError (msg : string)
| AttributeError (msg : string)
| NotImplementedError
| ForeignError (msg : string).

Inductive result (A : Type) : Type :=
| Ok (a : A)
| Raise (e : exn).

Arguments Ok {A} a.
Arguments Raise {A} e.

Definition is_ok {A} (r : result A) : bool :=
  match r with Ok _ => true | Raise _ => false end.

Definition bind {A B} (m : result A) (f : A -> result B) : result B :=
  match m with
  | Ok a => f a
  | Raise e => Raise e
  end.

Inductive level : Type := INFO | WARNING.

Record log_record : Type := mk_log { log_level : level; log_message : string }.

(** A computation over a state [S] that may raise.  The state reached when an
    exception is raised is kept, as it is in Python. *)
Definition ST (S A : Type) : Type := S -> result A * S.

Definition ret {S A} (a : A) : ST S A := fun s => (Ok a, s).

Definition raise {S A} (e : exn) : ST S A := fun s => (Raise e, s).

Definition mbind {S A B} (m : ST S A) (f : A -> ST S B) : ST S B :=
  fun s => match m s with
           | (Ok a, s') => f a s'
           | (Raise e, s') => (Raise e, s')
           end.

Definition lift {S A} (r : result A) : ST S A := fun s => (r, s).

Definition gets {S A} (f : S -> A) : ST S A := fun s => (Ok (f s), s).

Definition modify {S} (f : S -> S) : ST S unit := fun s => (Ok tt, f s).

(** [assert condition, message] *)
Definition assert {S} (condition : bool) (message : string) : ST S unit :=
  if condition then ret tt else raise (AssertionError message).

(** The constructors only touch the module logger. *)
Definition M (A : Type) : Type := ST (list log_record) A.

Definition logger_info (msg : string) : M unit :=
  modify (fun l => (l ++ [mk_log INFO msg])%list).

Definition logger_warning (msg : string) : M unit :=
  modify (fun l => (l ++ [mk_log WARNING msg])%list).

(** Running a computation with an empty log. *)
Definition run {A} (m : M A) : result A := fst (m []).

Definition logged {A} (m : M A) : list log_record := snd (m []).

(** [s[0]] on a string. *)
Definition str_index0 (s : string) : result ascii :=
  match s with
  | EmptyString => Raise (IndexError "string index out of range")
  | String c _ => Ok c
  end.

(** [l[-1]] on a list. *)
Definition list_last {A} (l : list A) : result A :=
  match last l with
  | Some x => Ok x
  | None => Raise (IndexError "list index out of range")
  end.

(** [range(n)]: empty when [n <= 0]. *)
Definition range (n : Z) : list Z := seqZ 0 n.

(** Floor division and modulo of Python integers by a non-zero divisor. *)
Definition floordiv (a b : Z) : result Z :=
  if decide (b = 0) then Raise (ZeroDivisionError "integer division or modulo by zero")
  else Ok (a `div` b).

Definition modulo (a b : Z) : result Z :=
  if decide (b = 0) then Raise (ZeroDivisionError "integer division or modulo by zero")
  else Ok (a `mod` b).

End Py.

Import Py.

Notation "'do' x <- m ; k" := (Py.mbind m (fun x => k))
  (at level 10, x name, m at level 100, k at level 200).
Notation "'doR' x <- m ; k" := (Py.bind m (fun x => k))
  (at level 10, x name, m at level 100, k at level 200).

(** ** [sockeye.constants]

    The constants module is not part of the two files; the names used by
    them are taken as a record of strings. *)

Record constants : Type := {
  SOURCE_EMBEDDING_PREFIX : string;
  TIME_MAJOR : string;
  STACKEDRNN_PREFIX : string;
  BIDIRECTIONALRNN_PREFIX : string;
  FORWARD_PREFIX : string;
  REVERSE_PREFIX : string;
  LSTM_TYPE : string;
  TRANSFORMER_ENCODER_PREFIX : string;
  RNN_INIT_ORTHOGONAL : string;
  RNN_INIT_ORTHOGONAL_STACKED : string;
  LEXICON_NAME : string
}.

(** The values the constants have in Sockeye, used for concrete runs. *)
Definition sockeye_constants : constants := {|
  SOURCE_EMBEDDING_PREFIX := "source_embed_";
  TIME_MAJOR := "TNC";
  STACKEDRNN_PREFIX := "encoder_rnn_";
  BIDIRECTIONALRNN_PREFIX := "encoder_birnn_";
  FORWARD_PREFIX := "forward_";
  REVERSE_PREFIX := "reverse_";
  LSTM_TYPE := "lstm";
  TRANSFORMER_ENCODER_PREFIX := "encoder_transformer_";
  RNN_INIT_ORTHOGONAL := "orthogonal";
  RNN_INIT_ORTHOGONAL_STACKED := "orthogonal_stacked";
  LEXICON_NAME := "lexicon"
|}.

Definition BATCH_MAJOR : string := "NTC".

(** ** [sockeye.utils] *)

(** Modelled from the spec: [sockeye.utils.check_condition] is defined outside
    the two files.  The spec requires a failed configuration check to make
    construction fail at once with a descriptive configuration error: the
    condition is tested when the call is made and, when it does not hold, a
    [SockeyeError] carrying the given message is raised. *)
Definition check_condition (condition : bool) (error_message : string) : M unit :=
  if condition then ret tt else raise (SockeyeError error_message).

(** ** Arrays and initializers ([mxnet], [numpy], [sockeye.initializer]) *)

(** A dense array: its shape and its elements in row-major order. *)
Record NDArray : Type := mk_NDArray { shape : list Z; values : list float }.

(** A two-dimensional numpy array, as a list of rows. *)
Definition matrix : Type := list (list float).

Inductive Initializer : Type :=
| Orthogonal
| StackedOrthogonalInit (scale : float) (rand_type : string)
| PositionalEncodingInitializer (max_seq_len num_embed : Z)
| LexiconInitializer (lexicon : NDArray)
| Xavier (factor_type : string) (magnitude : float).

(** [mx.initializer.Mixed(patterns, initializers)] *)
Record Mixed : Type := mk_Mixed {
  patterns : list string;
  initializers : list (option Initializer)
}.

(** ** Objects of [sockeye.layers]

    The three classes are defined outside the two files.  An object is
    represented by the arguments it was constructed with; its parameters are
    named after its prefix, so two objects with the same arguments declare
    the same parameters. *)

Record MultiHeadAttention : Type := mk_MultiHeadAttention {
  mha_depth_att : Z;
  mha_heads : Z;
  mha_depth_out : Z;
  mha_dropout : float;
  mha_prefix : string
}.

Record LayerNormalization : Type := mk_LayerNormalization {
  ln_num_hidden : Z;
  ln_prefix : string
}.

Record FFNRelu : Type := mk_FFNRelu {
  ffn_prefix : string;
  ffn_num_hidden : Z;
  ffn_num_model : Z;
  ffn_dropout : float
}.

(** ** Symbols

    [RNNCell] is the type of the cell objects of [mx.rnn] and [sockeye.rnn];
    the encoders only store them, hand them out and call [unroll] on them. *)

Inductive Symbol (RNNCell : Type) : Type :=
| sym_Variable (name : string) (shape : option (list Z)) (init : option Initializer)
| sym_swapaxes (data : Symbol RNNCell) (dim1 dim2 : Z) (attr_layout : option string)
| sym_Embedding (data : Symbol RNNCell) (input_dim : Z) (weight : Symbol RNNCell)
    (output_dim : Z) (name : string)
| sym_broadcast_add (lhs rhs : Symbol RNNCell) (name : string)
| sym_Dropout (data : Symbol RNNCell) (p : float) (name : string)
| sym_slice_axis (data : Symbol RNNCell) (axis begin end_ : Z)
| sym_expand_dims (data : Symbol RNNCell) (axis : Z)
| sym_BlockGrad (data : Symbol RNNCell)
| sym_SequenceReverse (data sequence_length : Symbol RNNCell) (use_sequence_length : bool)
| sym_concat (lhs rhs : Symbol RNNCell) (dim : Z) (name : string)
| sym_add (lhs rhs : Symbol RNNCell)
| rnn_unroll (cell : RNNCell) (length : Z) (inputs : Symbol RNNCell)
    (merge_outputs : bool) (layout : string)
| MultiHeadAttention_on (self : MultiHeadAttention) (data data_length : Symbol RNNCell)
    (seq_len : Z)
| LayerNormalization_normalize (self : LayerNormalization) (data : Symbol RNNCell)
| FFNRelu_apply (self : FFNRelu) (data : Symbol RNNCell) (seq_len : Z).

Arguments sym_Variable {RNNCell} name shape init.
Arguments sym_swapaxes {RNNCell} data dim1 dim2 attr_layout.
Arguments sym_Embedding {RNNCell} data input_dim weight output_dim name.
Arguments sym_broadcast_add {RNNCell} lhs rhs name.
Arguments sym_Dropout {RNNCell} data p name.
Arguments sym_slice_axis {RNNCell} data axis begin end_.
Arguments sym_expand_dims {RNNCell} data axis.
Arguments sym_BlockGrad {RNNCell} data.
Arguments sym_SequenceReverse {RNNCell} data sequence_length use_sequence_length.
Arguments sym_concat {RNNCell} lhs rhs dim name.
Arguments sym_add {RNNCell} lhs rhs.
Arguments rnn_unroll {RNNCell} cell length inputs merge_outputs layout.
Arguments MultiHeadAttention_on {RNNCell} self data data_length seq_len.
Arguments LayerNormalization_normalize {RNNCell} self data.
Arguments FFNRelu_apply {RNNCell} self data seq_len.

(** ** The [Encoder] interface *)

Record Encoder (RNNCell : Type) : Type := mk_Encoder {
  encode : Symbol RNNCell -> Symbol RNNCell -> Z -> result (Symbol RNNCell);
  get_num_hidden : result Z;
  get_rnn_cells : result (list RNNCell)
}.

Arguments mk_Encoder {RNNCell} encode get_num_hidden get_rnn_cells.
Arguments encode {RNNCell} e data data_length seq_len.
Arguments get_num_hidden {RNNCell} e.
Arguments get_rnn_cells {RNNCell} e.

(** ** [sockeye/initializer.py] *)

Section sockeye.

Variable C : constants.

(** The state of [np.random] and the three numpy functions the stacked
    initializer calls; [np_linalg_svd] returns the third component of the
    decomposition. *)
Context {rng : Type}.
Variable np_random_uniform : float -> float -> Z -> rng -> matrix * rng.
Variable np_random_normal : float -> float -> Z -> rng -> matrix * rng.
Variable np_linalg_svd : matrix -> matrix.

Definition get_initializer (rnn_init_type : string) (lexicon : option NDArray) : M Mixed :=
  do h2h_init <-
    (if decide (rnn_init_type = RNN_INIT_ORTHOGONAL C) then
       do _ <- logger_info "Orthogonal RNN initializer" ;
       ret Orthogonal
     else if decide (rnn_init_type = RNN_INIT_ORTHOGONAL_STACKED C) then
       do _ <- logger_info "Stacked orthogonal RNN initializer" ;
       ret (StackedOrthogonalInit 1.0%float "eye")
     else
       raise (ValueError ("unknown rnn initialization type: " ++ rnn_init_type))) ;
  let lexicon_init :=
    match lexicon with
    | Some l => Some (LexiconInitializer l)
    | None => None
    end in
  let params_init_pairs :=
    [ (".*h2h.*", Some h2h_init);
      (LEXICON_NAME C, lexicon_init);
      (".*", Some (Xavier "in" 2.34%float)) ] in
  ret (mk_Mixed (map fst params_init_pairs) (map snd params_init_pairs)).

(** The state [_init_weight] works on: the array it fills in place, the
    numpy random state and the logger. *)
Record init_state : Type := mk_init_state {
  st_arr : NDArray;
  st_rng : rng;
  st_log : list log_record
}.

Definition st_logger_info (msg : string) : ST init_state unit :=
  modify (fun s => mk_init_state (st_arr s) (st_rng s) (st_log s ++ [mk_log INFO msg])%list).

Definition st_random (draw : rng -> matrix * rng) : ST init_state matrix :=
  fun s => let '(m, g) := draw (st_rng s) in
           (Ok m, mk_init_state (st_arr s) g (st_log s)).

Definition np_eye (n : Z) : matrix :=
  map (fun i => map (fun j => if decide (i = j) then 1.0%float else 0.0%float) (range n))
      (range n).

Definition scale_matrix (scale : float) (q : matrix) : matrix :=
  map (map (PrimFloat.mul scale)) q.

(** [arr[start:stop] = q] on a two-dimensional array whose rows have
    [width] elements, for [0 <= start <= stop <= arr.shape[0]] and [q] of
    shape [(stop - start, width)], which is how the loop below calls it. *)
Definition assign_rows (width start stop : Z) (q : matrix) : ST init_state unit :=
  modify (fun s =>
    let v := values (st_arr s) in
    let v' := (take (Z.to_nat (start * width)) v ++ concat q
               ++ drop (Z.to_nat (stop * width)) v)%list in
    mk_init_state (mk_NDArray (shape (st_arr s)) v') (st_rng s) (st_log s)).

Definition repr_shape (sh : list Z) : string :=
  "(" ++ String.concat ", " (map pretty sh) ++ ")".

Fixpoint StackedOrthogonalInit_loop (scale : float) (rand_type : string) (base_dim : Z)
    (mat_idxs : list Z) : ST init_state unit :=
  match mat_idxs with
  | [] => ret tt
  | mat_idx :: rest =>
      do q <-
        (if decide (rand_type = "uniform") then
           do tmp <- st_random (np_random_uniform (-1.0)%float 1.0%float base_dim) ;
           ret (np_linalg_svd tmp)
         else if decide (rand_type = "normal") then
           do tmp <- st_random (np_random_normal 0.0%float 1.0%float base_dim) ;
           ret (np_linalg_svd tmp)
         else if decide (rand_type = "eye") then
           ret (np_eye base_dim)
         else
           raise (ValueError ("unknown rand_type " ++ rand_type))) ;
      let q := scale_matrix scale q in
      do _ <- assign_rows base_dim (mat_idx * base_dim) (mat_idx * base_dim + base_dim) q ;
      StackedOrthogonalInit_loop scale rand_type base_dim rest
  end.

Definition StackedOrthogonalInit_init_weight (scale : float) (rand_type : string)
    (sym_name : string) : ST init_state unit :=
  do sh <- gets (fun s => shape (st_arr s)) ;
  do _ <- assert (bool_decide (Z.of_nat (length sh) = 2)) "Only 2d weight matrices supported." ;
  let base_dim := nth 1 sh 0 in
  let stacked_dim := nth 0 sh 0 in
  do r <- lift (modulo stacked_dim base_dim) ;
  do _ <- assert (bool_decide (r = 0))
            "Dim1 must be a multiple of dim2 (as weight = stacked square matrices)." ;
  do num_sub_matrices <- lift (floordiv stacked_dim base_dim) ;
  do _ <- st_logger_info ("Initializing weight " ++ sym_name ++ " (shape=" ++ repr_shape sh
                          ++ ", num_sub_matrices=" ++ pretty num_sub_matrices
                          ++ ") with an orthogonal weight matrix.") ;
  StackedOrthogonalInit_loop scale rand_type base_dim (seqZ 0 num_sub_matrices).

(** ** [sockeye/encoder.py] *)

(** The cell objects and the two functions that build them:
    [sockeye.rnn.get_stacked_rnn(cell_type, num_hidden, num_layers, dropout,
    prefix, residual, forget_bias)] and [mx.rnn.FusedRNNCell(num_hidden,
    num_layers, mode, bidirectional, dropout, forget_bias, prefix)].  Both are
    defined outside the two files and may raise or log. *)
Context {RNNCell : Type}.
Variable get_stacked_rnn : string -> Z -> Z -> float -> string -> bool -> float -> M RNNCell.
Variable FusedRNNCell : Z -> Z -> string -> bool -> float -> float -> string -> M RNNCell.

Abbreviation Sym := (Symbol RNNCell).
Abbreviation Enc := (Encoder RNNCell).

(** *** class Encoder *)

Definition Encoder_base : Enc :=
  mk_Encoder (fun _ _ _ => Raise NotImplementedError)
             (Raise NotImplementedError)
             (Raise NotImplementedError).

(** *** class BatchMajor2TimeMajor *)

Record BatchMajor2TimeMajor : Type := mk_BatchMajor2TimeMajor {
  BatchMajor2TimeMajor_num_hidden : Z
}.

(** [num_hidden] defaults to 0. *)
Definition BatchMajor2TimeMajor_init (num_hidden : Z) : M BatchMajor2TimeMajor :=
  ret (mk_BatchMajor2TimeMajor num_hidden).

Definition BatchMajor2TimeMajor_encode (self : BatchMajor2TimeMajor)
    (data data_length : Sym) (seq_len : Z) : result Sym :=
  Ok (sym_swapaxes data 0 1 (Some (TIME_MAJOR C))).

Definition BatchMajor2TimeMajor_get_num_hidden (self : BatchMajor2TimeMajor) : result Z :=
  Ok (BatchMajor2TimeMajor_num_hidden self).

Definition BatchMajor2TimeMajor_get_rnn_cells (self : BatchMajor2TimeMajor)
    : result (list RNNCell) :=
  Ok [].

Definition BatchMajor2TimeMajor_Encoder (self : BatchMajor2TimeMajor) : Enc :=
  mk_Encoder (BatchMajor2TimeMajor_encode self)
             (BatchMajor2TimeMajor_get_num_hidden self)
             (BatchMajor2TimeMajor_get_rnn_cells self).

(** *** class Embedding *)

Record Embedding : Type := mk_Embedding {
  Embedding_num_embed : Z;
  Embedding_vocab_size : Z;
  Embedding_prefix : string;
  Embedding_dropout : float;
  Embedding_embed_weight : Sym;
  Embedding_add_positional_encoding : bool
}.

(** [add_positional_encoding] defaults to [False]. *)
Definition Embedding_init (num_embed vocab_size : Z) (prefix : string) (dropout : float)
    (add_positional_encoding : bool) : M Embedding :=
  ret (mk_Embedding num_embed vocab_size prefix dropout
         (sym_Variable (prefix ++ "weight") None None)
         add_positional_encoding).

Definition Embedding_get_positional_encoding (self : Embedding) (seq_len : Z) : Sym :=
  let max_seq_len := 500 in
  let encodings :=
    sym_Variable (Embedding_prefix self ++ "positional_encodings")
      (Some [max_seq_len; Embedding_num_embed self])
      (Some (PositionalEncodingInitializer max_seq_len (Embedding_num_embed self))) in
  let encodings := sym_slice_axis encodings 0 0 seq_len in
  let encodings := sym_BlockGrad (sym_expand_dims encodings 0) in
  encodings.

Definition Embedding_encode (self : Embedding) (data data_length : Sym) (seq_len : Z)
    : result Sym :=
  let embedding :=
    sym_Embedding data (Embedding_vocab_size self) (Embedding_embed_weight self)
      (Embedding_num_embed self) (Embedding_prefix self ++ "embed") in
  let embedding :=
    if Embedding_add_positional_encoding self then
      sym_broadcast_add embedding (Embedding_get_positional_encoding self seq_len)
        (Embedding_prefix self ++ "add_encoding")
    else embedding in
  let embedding :=
    if PrimFloat.ltb 0%float (Embedding_dropout self) then
      sym_Dropout embedding (Embedding_dropout self) "source_embed_dropout"
    else embedding in
  Ok embedding.

Definition Embedding_get_num_hidden (self : Embedding) : result Z :=
  Ok (Embedding_num_embed self).

Definition Embedding_get_rnn_cells (self : Embedding) : result (list RNNCell) :=
  Ok [].

Definition Embedding_Encoder (self : Embedding) : Enc :=
  mk_Encoder (Embedding_encode self)
             (Embedding_get_num_hidden self)
             (Embedding_get_rnn_cells self).

(** *** class EncoderSequence *)

Record EncoderSequence : Type := mk_EncoderSequence {
  EncoderSequence_encoders : list Enc
}.

Definition EncoderSequence_init (encoders : list Enc) : M EncoderSequence :=
  ret (mk_EncoderSequence encoders).

(** The loop [for encoder in self.encoders: data = encoder.encode(...)]. *)
Fixpoint EncoderSequence_encode_loop (encoders : list Enc) (data data_length : Sym)
    (seq_len : Z) : result Sym :=
  match encoders with
  | [] => Ok data
  | encoder :: rest =>
      doR data <- encode encoder data data_length seq_len ;
      EncoderSequence_encode_loop rest data data_length seq_len
  end.

Definition EncoderSequence_encode (self : EncoderSequence) (data data_length : Sym)
    (seq_len : Z) : result Sym :=
  EncoderSequence_encode_loop (EncoderSequence_encoders self) data data_length seq_len.

Definition EncoderSequence_get_num_hidden (self : EncoderSequence) : result Z :=
  doR encoder <- list_last (EncoderSequence_encoders self) ;
  get_num_hidden encoder.

Fixpoint EncoderSequence_get_rnn_cells_loop (encoders : list Enc) (cells : list RNNCell)
    : result (list RNNCell) :=
  match encoders with
  | [] => Ok cells
  | encoder :: rest =>
      doR cs <- get_rnn_cells encoder ;
      EncoderSequence_get_rnn_cells_loop rest (cells ++ cs)%list
  end.

Definition EncoderSequence_get_rnn_cells (self : EncoderSequence) : result (list RNNCell) :=
  EncoderSequence_get_rnn_cells_loop (EncoderSequence_encoders self) [].

Definition EncoderSequence_Encoder (self : EncoderSequence) : Enc :=
  mk_Encoder (EncoderSequence_encode self)
             (EncoderSequence_get_num_hidden self)
             (EncoderSequence_get_rnn_cells self).

(** *** class RecurrentEncoder *)

Record RecurrentEncoder : Type := mk_RecurrentEncoder {
  RecurrentEncoder_layout : string;
  RecurrentEncoder_num_hidden : Z;
  RecurrentEncoder_rnn : RNNCell
}.

(** Defaults: [prefix=C.STACKEDRNN_PREFIX], [dropout=0.], [layout=C.TIME_MAJOR],
    [cell_type=C.LSTM_TYPE], [residual=False], [forget_bias=0.0]. *)
Definition RecurrentEncoder_init (num_hidden num_layers : Z) (prefix : string)
    (dropout : float) (layout cell_type : string) (residual : bool) (forget_bias : float)
    : M RecurrentEncoder :=
  do rnn <- get_stacked_rnn cell_type num_hidden num_layers dropout prefix residual
              forget_bias ;
  ret (mk_RecurrentEncoder layout num_hidden rnn).

Definition RecurrentEncoder_encode (self : RecurrentEncoder) (data data_length : Sym)
    (seq_len : Z) : result Sym :=
  let outputs :=
    rnn_unroll (RecurrentEncoder_rnn self) seq_len data true (RecurrentEncoder_layout self) in
  Ok outputs.

Definition RecurrentEncoder_get_rnn_cells (self : RecurrentEncoder) : result (list RNNCell) :=
  Ok [RecurrentEncoder_rnn self].

Definition RecurrentEncoder_get_num_hidden (self : RecurrentEncoder) : result Z :=
  Ok (RecurrentEncoder_num_hidden self).

Definition RecurrentEncoder_Encoder (self : RecurrentEncoder) : Enc :=
  mk_Encoder (RecurrentEncoder_encode self)
             (RecurrentEncoder_get_num_hidden self)
             (RecurrentEncoder_get_rnn_cells self).

(** *** class FusedRecurrentEncoder *)

Record FusedRecurrentEncoder : Type := mk_FusedRecurrentEncoder {
  FusedRecurrentEncoder_layout : string;
  FusedRecurrentEncoder_num_hidden : Z;
  FusedRecurrentEncoder_rnn : list RNNCell
}.

Definition FusedRecurrentEncoder_init (num_hidden num_layers : Z) (prefix : string)
    (dropout : float) (layout cell_type : string) (residual : bool) (forget_bias : float)
    : M FusedRecurrentEncoder :=
  do _ <- logger_warning
            (prefix ++ ": FusedRNNCell uses standard MXNet Orthogonal initializer w/ rand_type=uniform") ;
  do cell <- FusedRNNCell num_hidden num_layers cell_type false dropout forget_bias prefix ;
  ret (mk_FusedRecurrentEncoder layout num_hidden [cell]).

(** The loop [for cell in self.rnn: outputs, _ = cell.unroll(...)]. *)
Fixpoint FusedRecurrentEncoder_encode_loop (layout : string) (cells : list RNNCell)
    (outputs : Sym) (seq_len : Z) : Sym :=
  match cells with
  | [] => outputs
  | cell :: rest =>
      FusedRecurrentEncoder_encode_loop layout rest
        (rnn_unroll cell seq_len outputs true layout) seq_len
  end.

Definition FusedRecurrentEncoder_encode (self : FusedRecurrentEncoder)
    (data data_length : Sym) (seq_len : Z) : result Sym :=
  let outputs := data in
  Ok (FusedRecurrentEncoder_encode_loop (FusedRecurrentEncoder_layout self)
        (FusedRecurrentEncoder_rnn self) outputs seq_len).

Definition FusedRecurrentEncoder_get_rnn_cells (self : FusedRecurrentEncoder)
    : result (list RNNCell) :=
  Ok (FusedRecurrentEncoder_rnn self).

Definition FusedRecurrentEncoder_get_num_hidden (self : FusedRecurrentEncoder) : result Z :=
  Ok (FusedRecurrentEncoder_num_hidden self).

Definition FusedRecurrentEncoder_Encoder (self : FusedRecurrentEncoder) : Enc :=
  mk_Encoder (FusedRecurrentEncoder_encode self)
             (FusedRecurrentEncoder_get_num_hidden self)
             (FusedRecurrentEncoder_get_rnn_cells self).

(** *** class BiDirectionalRNNEncoder *)

(** The [encoder_class] argument: a callable taking the keyword arguments
    [num_hidden], [num_layers], [prefix], [dropout], [layout], [cell_type]
    and [forget_bias], and returning an encoder. *)
Definition encoder_class_t : Type :=
  Z -> Z -> string -> float -> string -> string -> float -> M Enc.

(** The two classes as callables; [residual] is left at its default. *)
Definition RecurrentEncoder_class : encoder_class_t :=
  fun num_hidden num_layers prefix dropout layout cell_type forget_bias =>
    do e <- RecurrentEncoder_init num_hidden num_layers prefix dropout layout cell_type
              false forget_bias ;
    ret (RecurrentEncoder_Encoder e).

Definition FusedRecurrentEncoder_class : encoder_class_t :=
  fun num_hidden num_layers prefix dropout layout cell_type forget_bias =>
    do e <- FusedRecurrentEncoder_init num_hidden num_layers prefix dropout layout cell_type
              false forget_bias ;
    ret (FusedRecurrentEncoder_Encoder e).

Record BiDirectionalRNNEncoder : Type := mk_BiDirectionalRNNEncoder {
  BiDirectionalRNNEncoder_num_hidden : Z;
  BiDirectionalRNNEncoder_forward_rnn : Enc;
  BiDirectionalRNNEncoder_reverse_rnn : Enc;
  BiDirectionalRNNEncoder_layout : string;
  BiDirectionalRNNEncoder_prefix : string
}.

(** [layout[0] == 'N'] *)
Definition layout_is_batch_major (layout : string) : result bool :=
  doR c <- str_index0 layout ;
  Ok (bool_decide (c = "N"%char)).

(** Defaults: [prefix=C.BIDIRECTIONALRNN_PREFIX], [dropout=0.],
    [layout=C.TIME_MAJOR], [cell_type=C.LSTM_TYPE],
    [encoder_class=RecurrentEncoder], [forget_bias=0.0]. *)
Definition BiDirectionalRNNEncoder_init (num_hidden num_layers : Z) (prefix : string)
    (dropout : float) (layout cell_type : string) (encoder_class : encoder_class_t)
    (forget_bias : float) : M BiDirectionalRNNEncoder :=
  do _ <- check_condition (bool_decide (num_hidden `mod` 2 = 0))
            "num_hidden must be a multiple of 2 for BiDirectionalRNNEncoders." ;
  do batch_major <- lift (layout_is_batch_major layout) ;
  do _ <- (if batch_major : bool then
             logger_warning
               "Batch-major layout for encoder input. Consider using time-major layout for faster speed"
           else ret tt) ;
  do forward_rnn <- encoder_class (num_hidden `div` 2) num_layers
                      (prefix ++ FORWARD_PREFIX C) dropout (TIME_MAJOR C) cell_type
                      forget_bias ;
  do reverse_rnn <- encoder_class (num_hidden `div` 2) num_layers
                      (prefix ++ REVERSE_PREFIX C) dropout (TIME_MAJOR C) cell_type
                      forget_bias ;
  ret (mk_BiDirectionalRNNEncoder num_hidden forward_rnn reverse_rnn layout prefix).

Definition BiDirectionalRNNEncoder__encode (self : BiDirectionalRNNEncoder)
    (data data_length : Sym) (seq_len : Z) : result Sym :=
  let data_reverse := sym_SequenceReverse data data_length true in
  doR hidden_forward <-
    encode (BiDirectionalRNNEncoder_forward_rnn self) data data_length seq_len ;
  doR hidden_reverse <-
    encode (BiDirectionalRNNEncoder_reverse_rnn self) data_reverse data_length seq_len ;
  let hidden_reverse := sym_SequenceReverse hidden_reverse data_length true in
  let hidden_concat :=
    sym_concat hidden_forward hidden_reverse 2 (BiDirectionalRNNEncoder_prefix self ++ "_rnn") in
  Ok hidden_concat.

Definition BiDirectionalRNNEncoder_encode (self : BiDirectionalRNNEncoder)
    (data data_length : Sym) (seq_len : Z) : result Sym :=
  doR batch_major <- layout_is_batch_major (BiDirectionalRNNEncoder_layout self) ;
  let data := if batch_major : bool then sym_swapaxes data 0 1 None else data in
  doR data <- BiDirectionalRNNEncoder__encode self data data_length seq_len ;
  doR batch_major <- layout_is_batch_major (BiDirectionalRNNEncoder_layout self) ;
  let data := if batch_major : bool then sym_swapaxes data 0 1 None else data in
  Ok data.

Definition BiDirectionalRNNEncoder_get_num_hidden (self : BiDirectionalRNNEncoder)
    : result Z :=
  Ok (BiDirectionalRNNEncoder_num_hidden self).

Definition BiDirectionalRNNEncoder_get_rnn_cells (self : BiDirectionalRNNEncoder)
    : result (list RNNCell) :=
  doR fwd <- get_rnn_cells (BiDirectionalRNNEncoder_forward_rnn self) ;
  doR rev <- get_rnn_cells (BiDirectionalRNNEncoder_reverse_rnn self) ;
  Ok (fwd ++ rev)%list.

Definition BiDirectionalRNNEncoder_Encoder (self : BiDirectionalRNNEncoder) : Enc :=
  mk_Encoder (BiDirectionalRNNEncoder_encode self)
             (BiDirectionalRNNEncoder_get_num_hidden self)
             (BiDirectionalRNNEncoder_get_rnn_cells self).

(** *** class TransformerEncoder *)

(** The objects the local variables of [__init__] are bound to. *)
Inductive object : Type :=
| obj_MultiHeadAttention (o : MultiHeadAttention)
| obj_LayerNormalization (o : LayerNormalization)
| obj_FFNRelu (o : FFNRelu).

(** The function objects appended to [self.layers].  Python closes over
    variables, not over the values they have when [def] is executed: the free
    variables [attention], [attention_ln], [feed_forward] and
    [feed_forward_ln] of every [apply] refer to the cells of the one
    activation of [__init__] that ran the loop.  A function object is
    represented by the loop index at which its [def] was executed, which its
    body never reads; the cells are kept once, in [TransformerEncoder_cells],
    and are read when the function is called. *)
Inductive function : Type :=
| def_apply (i : Z).

Record TransformerEncoder : Type := mk_TransformerEncoder {
  TransformerEncoder_model_size : Z;
  TransformerEncoder_num_layers : Z;
  TransformerEncoder_attention_heads : Z;
  TransformerEncoder_feed_forward_num_hidden : Z;
  TransformerEncoder_dropout : float;
  TransformerEncoder_prefix : string;
  TransformerEncoder_layers : list function;
  TransformerEncoder_cells : gmap string object
}.

(** The four objects constructed by iteration [i] of the loop. *)
Definition new_attention (model_size attention_heads : Z) (dropout : float)
    (prefix : string) (i : Z) : MultiHeadAttention :=
  mk_MultiHeadAttention model_size attention_heads model_size dropout
    (prefix ++ "attn_" ++ pretty i ++ "_").

Definition new_attention_ln (model_size : Z) (prefix : string) (i : Z) : LayerNormalization :=
  mk_LayerNormalization model_size (prefix ++ "attn_ln_" ++ pretty i ++ "_").

Definition new_feed_forward (model_size feed_forward_num_hidden : Z) (dropout : float)
    (prefix : string) (i : Z) : FFNRelu :=
  mk_FFNRelu (prefix ++ "ffn_" ++ pretty i ++ "_") feed_forward_num_hidden model_size dropout.

Definition new_feed_forward_ln (model_size : Z) (prefix : string) (i : Z)
    : LayerNormalization :=
  mk_LayerNormalization model_size (prefix ++ "ffn_ln_" ++ pretty i ++ "_").

(** One iteration of [for i in range(self.num_layers)]: the four assignments
    rebind the cells, then the new function object is appended. *)
Definition TransformerEncoder_init_body (model_size attention_heads feed_forward_num_hidden : Z)
    (dropout : float) (prefix : string)
    (st : gmap string object * list function) (i : Z)
    : gmap string object * list function :=
  let '(cells, layers) := st in
  let cells :=
    <["attention" :=
        obj_MultiHeadAttention (new_attention model_size attention_heads dropout prefix i)]>
      cells in
  let cells :=
    <["attention_ln" := obj_LayerNormalization (new_attention_ln model_size prefix i)]> cells in
  let cells :=
    <["feed_forward" :=
        obj_FFNRelu (new_feed_forward model_size feed_forward_num_hidden dropout prefix i)]>
      cells in
  let cells :=
    <["feed_forward_ln" := obj_LayerNormalization (new_feed_forward_ln model_size prefix i)]>
      cells in
  (cells, (layers ++ [def_apply i])%list).

(** Defaults: [model_size=512], [num_layers=6], [attention_heads=8],
    [feed_forward_num_hidden=2048], [dropout=0.],
    [prefix=C.TRANSFORMER_ENCODER_PREFIX]. *)
Definition TransformerEncoder_init (model_size num_layers attention_heads
    feed_forward_num_hidden : Z) (dropout : float) (prefix : string) : M TransformerEncoder :=
  let '(cells, layers) :=
    fold_left
      (TransformerEncoder_init_body model_size attention_heads feed_forward_num_hidden
         dropout prefix)
      (range num_layers) (∅, []) in
  ret (mk_TransformerEncoder model_size num_layers attention_heads feed_forward_num_hidden
         dropout prefix layers cells).

(** Reading a free variable of [apply]. *)
Definition load_deref (cells : gmap string object) (name : string) : result object :=
  match cells !! name with
  | Some o => Ok o
  | None =>
      Raise (NameError ("free variable '" ++ name
                        ++ "' referenced before assignment in enclosing scope"))
  end.

Definition as_MultiHeadAttention (o : object) : result MultiHeadAttention :=
  match o with
  | obj_MultiHeadAttention a => Ok a
  | _ => Raise (AttributeError "object has no attribute 'on'")
  end.

Definition as_LayerNormalization (o : object) : result LayerNormalization :=
  match o with
  | obj_LayerNormalization a => Ok a
  | _ => Raise (AttributeError "object has no attribute 'normalize'")
  end.

Definition as_FFNRelu (o : object) : result FFNRelu :=
  match o with
  | obj_FFNRelu a => Ok a
  | _ => Raise (AttributeError "object has no attribute 'apply'")
  end.

(** The body of the nested function [apply], run against the cells as they are at the call. *)
Definition TransformerEncoder_apply (cells : gmap string object) (data data_length : Sym) (seq_len : Z)
    : result Sym :=
  doR attention_ln <- (doR o <- load_deref cells "attention_ln" ; as_LayerNormalization o) ;
  doR attention <- (doR o <- load_deref cells "attention" ; as_MultiHeadAttention o) ;
  let encoded_attn :=
    LayerNormalization_normalize attention_ln
      (sym_add data (MultiHeadAttention_on attention data data_length seq_len)) in
  doR feed_forward_ln <-
    (doR o <- load_deref cells "feed_forward_ln" ; as_LayerNormalization o) ;
  doR feed_forward <- (doR o <- load_deref cells "feed_forward" ; as_FFNRelu o) ;
  let encoded_attn_ffn :=
    LayerNormalization_normalize feed_forward_ln
      (sym_add encoded_attn (FFNRelu_apply feed_forward encoded_attn seq_len)) in
  Ok encoded_attn_ffn.

Definition call (cells : gmap string object) (layer : function)
    (data data_length : Sym) (seq_len : Z) : result Sym :=
  match layer with
  | def_apply _ => TransformerEncoder_apply cells data data_length seq_len
  end.

(** The loop [for i, layer in enumerate(self.layers)]. *)
Fixpoint TransformerEncoder_encode_loop (cells : gmap string object) (layers : list function)
    (encoded data_length : Sym) (seq_len : Z) : result Sym :=
  match layers with
  | [] => Ok encoded
  | layer :: rest =>
      doR encoded <- call cells layer encoded data_length seq_len ;
      TransformerEncoder_encode_loop cells rest encoded data_length seq_len
  end.

Definition TransformerEncoder_encode (self : TransformerEncoder) (data data_length : Sym)
    (seq_len : Z) : result Sym :=
  let encoded := data in
  TransformerEncoder_encode_loop (TransformerEncoder_cells self)
    (TransformerEncoder_layers self) encoded data_length seq_len.

Definition TransformerEncoder_get_num_hidden (self : TransformerEncoder) : result Z :=
  Ok (TransformerEncoder_model_size self).

Definition TransformerEncoder_get_rnn_cells (self : TransformerEncoder)
    : result (list RNNCell) :=
  Ok [].

Definition TransformerEncoder_Encoder (self : TransformerEncoder) : Enc :=
  mk_Encoder (TransformerEncoder_encode self)
             (TransformerEncoder_get_num_hidden self)
             (TransformerEncoder_get_rnn_cells self).

(** *** The two builders *)

Definition get_encoder_rnn (num_embed vocab_size num_layers rnn_num_hidden : Z)
    (cell_type : string) (residual : bool) (dropout forget_bias : float) (fused : bool)
    : M Enc :=
  let encoders : list Enc := [] in
  do e <- Embedding_init num_embed vocab_size (SOURCE_EMBEDDING_PREFIX C) dropout false ;
  let encoders := (encoders ++ [Embedding_Encoder e])%list in
  do e <- BatchMajor2TimeMajor_init 0 ;
  let encoders := (encoders ++ [BatchMajor2TimeMajor_Encoder e])%list in
  let encoder_class := if fused then FusedRecurrentEncoder_class else RecurrentEncoder_class in
  do e <- BiDirectionalRNNEncoder_init rnn_num_hidden 1 (BIDIRECTIONALRNN_PREFIX C) dropout
            (TIME_MAJOR C) cell_type encoder_class forget_bias ;
  let encoders := (encoders ++ [BiDirectionalRNNEncoder_Encoder e])%list in
  do encoders <-
    (if bool_decide (1 < num_layers) then
       do e <- (if fused then
                  do e <- FusedRecurrentEncoder_init rnn_num_hidden (num_layers - 1)
                            (STACKEDRNN_PREFIX C) dropout (TIME_MAJOR C) cell_type residual
                            forget_bias ;
                  ret (FusedRecurrentEncoder_Encoder e)
                else
                  do e <- RecurrentEncoder_init rnn_num_hidden (num_layers - 1)
                            (STACKEDRNN_PREFIX C) dropout (TIME_MAJOR C) cell_type residual
                            forget_bias ;
                  ret (RecurrentEncoder_Encoder e)) ;
       ret (encoders ++ [e])%list
     else ret encoders) ;
  do e <- EncoderSequence_init encoders ;
  ret (EncoderSequence_Encoder e).

Definition get_encoder_transformer (model_size vocab_size num_layers attention_heads
    feed_forward_num_hidden : Z) (dropout : float) : M Enc :=
  let encoders : list Enc := [] in
  do e <- Embedding_init model_size vocab_size (SOURCE_EMBEDDING_PREFIX C) dropout true ;
  let encoders := (encoders ++ [Embedding_Encoder e])%list in
  do e <- TransformerEncoder_init model_size num_layers attention_heads
            feed_forward_num_hidden dropout (TRANSFORMER_ENCODER_PREFIX C) ;
  let encoders := (encoders ++ [TransformerEncoder_Encoder e])%list in
  do e <- BatchMajor2TimeMajor_init model_size ;
  let encoders := (encoders ++ [BatchMajor2TimeMajor_Encoder e])%list in
  do e <- EncoderSequence_init encoders ;
  ret (EncoderSequence_Encoder e).


(** ** What the operators of [Embedding.encode] compute

    The engine is outside the two files.  The operators that
    [Embedding.encode] declares are given their documented meaning on arrays
    of rank one to three, over any element type with an addition; every other
    operator is left unmodelled.  [Dropout] is the identity, as it is outside
    training.  [slice_axis] follows MXNet: a negative [begin] or [end] counts
    from the end of the axis, and the operator is rejected unless
    [0 <= begin < end <= size]. *)

Context {elt : Type}.
Variable elt_add : elt -> elt -> elt.
Variable elt_index : elt -> Z.

Inductive value : Type :=
| V1 (v : list elt)
| V2 (m : list (list elt))
| V3 (t : list (list (list elt))).

Inductive denotation : Type :=
| Defined (v : value)
| Undefined (why : string)
| Unmodelled.

Definition has_shape (v : value) (sh : list Z) : bool :=
  match v, sh with
  | V1 v, [n] => bool_decide (Z.of_nat (length v) = n)
  | V2 m, [n; d] =>
      bool_decide (Z.of_nat (length m) = n)
      && forallb (fun r => bool_decide (Z.of_nat (length r) = d)) m
  | V3 t, [b; n; d] =>
      bool_decide (Z.of_nat (length t) = b)
      && forallb (fun m =>
           bool_decide (Z.of_nat (length m) = n)
           && forallb (fun r => bool_decide (Z.of_nat (length r) = d)) m) t
  | _, _ => false
  end.

Definition slice_axis0 {A} (l : list A) (begin end_ : Z) : option (list A) :=
  let size := Z.of_nat (length l) in
  let begin := if bool_decide (begin < 0) then begin + size else begin in
  let end_ := if bool_decide (end_ < 0) then end_ + size else end_ in
  if bool_decide (0 <= end_ <= size) && bool_decide (0 <= begin < end_) then
    Some (take (Z.to_nat (end_ - begin)) (drop (Z.to_nat begin) l))
  else None.

(** Element-wise combination along one axis with broadcasting: the sizes are
    equal, or one of them is one. *)
Fixpoint zip_all {A B} (f : A -> A -> option B) (xs ys : list A) : option (list B) :=
  match xs, ys with
  | [], [] => Some []
  | x :: xs, y :: ys =>
      match f x y, zip_all f xs ys with
      | Some z, Some zs => Some (z :: zs)
      | _, _ => None
      end
  | _, _ => None
  end.

Fixpoint map_all {A B} (f : A -> option B) (xs : list A) : option (list B) :=
  match xs with
  | [] => Some []
  | x :: xs =>
      match f x, map_all f xs with
      | Some z, Some zs => Some (z :: zs)
      | _, _ => None
      end
  end.

Definition broadcast_axis {A B} (f : A -> A -> option B) (xs ys : list A) : option (list B) :=
  if bool_decide (length xs = length ys) then zip_all f xs ys
  else match xs, ys with
       | _, [y] => map_all (fun x => f x y) xs
       | [x], _ => map_all (fun y => f x y) ys
       | _, _ => None
       end.

Definition add0 (x y : elt) : option elt := Some (elt_add x y).
Definition add1 : list elt -> list elt -> option (list elt) := broadcast_axis add0.
Definition add2 : list (list elt) -> list (list elt) -> option (list (list elt)) :=
  broadcast_axis add1.
Definition add3 := broadcast_axis add2.

Definition of_option (why : string) (o : option value) : denotation :=
  match o with
  | Some v => Defined v
  | None => Undefined why
  end.

Definition broadcast_add_values (a b : value) : denotation :=
  match a, b with
  | V1 a, V1 b => of_option "broadcast_add: incompatible shapes" (V1 <$> add1 a b)
  | V2 a, V2 b => of_option "broadcast_add: incompatible shapes" (V2 <$> add2 a b)
  | V3 a, V3 b => of_option "broadcast_add: incompatible shapes" (V3 <$> add3 a b)
  | _, _ => Undefined "broadcast_add: ranks differ"
  end.

Definition slice_axis_value (v : value) (axis begin end_ : Z) : denotation :=
  if bool_decide (axis = 0) then
    match v with
    | V1 v => of_option "slice_axis: invalid begin, end" (V1 <$> slice_axis0 v begin end_)
    | V2 m => of_option "slice_axis: invalid begin, end" (V2 <$> slice_axis0 m begin end_)
    | V3 t => of_option "slice_axis: invalid begin, end" (V3 <$> slice_axis0 t begin end_)
    end
  else Unmodelled.

Definition expand_dims_value (v : value) (axis : Z) : denotation :=
  if bool_decide (axis = 0) then
    match v with
    | V1 v => Defined (V2 [v])
    | V2 m => Defined (V3 [m])
    | V3 _ => Unmodelled
    end
  else Unmodelled.

(** Row [i] of the weight table for every index [i] of the data. *)
Definition embedding_row (weight : list (list elt)) (x : elt) : option (list elt) :=
  if bool_decide (0 <= elt_index x) then weight !! Z.to_nat (elt_index x) else None.

Definition embedding_value (data weight : value) (input_dim output_dim : Z) : denotation :=
  match data, weight with
  | V2 idx, V2 w =>
      if has_shape (V2 w) [input_dim; output_dim] then
        of_option "Embedding: index out of range"
          (V3 <$> map_all (map_all (embedding_row w)) idx)
      else Undefined "Embedding: weight shape"
  | V1 idx, V2 w =>
      if has_shape (V2 w) [input_dim; output_dim] then
        of_option "Embedding: index out of range" (V2 <$> map_all (embedding_row w) idx)
      else Undefined "Embedding: weight shape"
  | _, _ => Unmodelled
  end.

Definition dbind (d : denotation) (k : value -> denotation) : denotation :=
  match d with
  | Defined v => k v
  | Undefined why => Undefined why
  | Unmodelled => Unmodelled
  end.

Fixpoint eval (env : gmap string value) (s : Symbol RNNCell) : denotation :=
  match s with
  | sym_Variable name declared _ =>
      match env !! name with
      | None => Undefined ("unbound variable " ++ name)
      | Some v =>
          match declared with
          | None => Defined v
          | Some sh =>
              if has_shape v sh then Defined v
              else Undefined ("shape of variable " ++ name)
          end
      end
  | sym_Embedding data input_dim weight output_dim _ =>
      dbind (eval env data) (fun d =>
      dbind (eval env weight) (fun w => embedding_value d w input_dim output_dim))
  | sym_broadcast_add lhs rhs _ =>
      dbind (eval env lhs) (fun a =>
      dbind (eval env rhs) (fun b => broadcast_add_values a b))
  | sym_Dropout data _ _ => eval env data
  | sym_slice_axis data axis begin end_ =>
      dbind (eval env data) (fun v => slice_axis_value v axis begin end_)
  | sym_expand_dims data axis =>
      dbind (eval env data) (fun v => expand_dims_value v axis)
  | sym_BlockGrad data => eval env data
  | _ => Unmodelled
  end.

(** ** [sockeye/initializer.py]: class PositionalEncodingInitializer *)

(** [np.sin], [np.cos] and [np.power] on one element of an array. *)
Variables (np_sin np_cos : float -> float).
Variable np_power : float -> float -> float.

(** An integer element of a numpy array, converted for a float operation. *)
Definition float_of_Z (z : Z) : float := PrimFloat.of_uint63 (Uint63.of_Z z).

(** [np.arange(start, stop, 2)]: empty when [stop <= start]. *)
Definition np_arange_step2 (start stop : Z) : list Z :=
  map (fun i => start + 2 * i) (seqZ 0 ((stop - start + 1) `div` 2)).

(** One element of [positions / np.power(10000, (2 * channels) / num_embed)]. *)
Definition position_angle (num_embed pos channel : Z) : float :=
  PrimFloat.div (float_of_Z pos)
    (np_power (float_of_Z 10000)
       (PrimFloat.div (float_of_Z (2 * channel)) (float_of_Z num_embed))).

(** The quotient of a column of positions by a row of channels, broadcast to
    one row per position. *)
Definition position_angles (num_embed : Z) (positions channels : list Z) : matrix :=
  map (fun pos => map (position_angle num_embed pos) channels) positions.

(** [np.hstack([a, b])] on two-dimensional arrays: the rows are joined, and
    the arrays must have as many rows as each other. *)
Definition np_hstack (a b : matrix) : result matrix :=
  if bool_decide (length a = length b) then Ok (zip_with app a b)
  else Raise (ValueError
                "all the input array dimensions except for the concatenation axis must match exactly").

Fixpoint chunks {A} (rows width : nat) (l : list A) : list (list A) :=
  match rows with
  | O => []
  | S rows => take width l :: chunks rows width (drop width l)
  end.

(** [a.reshape((rows, cols))] for non-negative [rows] and [cols]: the
    elements in row-major order, cut into rows; the sizes must agree. *)
Definition np_reshape (a : matrix) (rows cols : Z) : result matrix :=
  if bool_decide (0 <= rows /\ 0 <= cols /\ Z.of_nat (length (concat a)) = rows * cols) then
    Ok (chunks (Z.to_nat rows) (Z.to_nat cols) (concat a))
  else Raise (ValueError "cannot reshape array").

(** [arr[:] = a] for [a] of the shape of [arr]. *)
Definition assign_all (a : matrix) : ST init_state unit :=
  modify (fun s =>
    mk_init_state (mk_NDArray (shape (st_arr s)) (concat a)) (st_rng s) (st_log s)).

Definition PositionalEncodingInitializer_init_weight (max_seq_len num_embed : Z)
    (name : string) : ST init_state unit :=
  do sh <- gets (fun s => shape (st_arr s)) ;
  do _ <- assert (bool_decide (sh = [max_seq_len; num_embed])) "" ;
  let positions_even := np_arange_step2 0 max_seq_len in
  let positions_odd := np_arange_step2 1 max_seq_len in
  let channels := seqZ 0 num_embed in
  let sin := map (map np_sin) (position_angles num_embed positions_even channels) in
  let cos := map (map np_cos) (position_angles num_embed positions_odd channels) in
  do stacked <- lift (np_hstack sin cos) ;
  do positional_encodings <- lift (np_reshape stacked max_seq_len num_embed) ;
  assign_all positional_encodings.

(** ** The layer transform as the specification writes it

    A sub-layer group, and the residual-then-normalize transform of one layer:
    [x1 = LayerNorm_attn(x + SelfAttention(x, lengths, max_len))] followed by
    [x2 = LayerNorm_ffn(x1 + FeedForward(x1))]. *)

Record group : Type := mk_group {
  g_attention : MultiHeadAttention;
  g_attention_ln : LayerNormalization;
  g_feed_forward : FFNRelu;
  g_feed_forward_ln : LayerNormalization
}.

(** The group made of the four objects that iteration [i] constructs. *)
Definition new_group (model_size attention_heads feed_forward_num_hidden : Z)
    (dropout : float) (prefix : string) (i : Z) : group :=
  mk_group (new_attention model_size attention_heads dropout prefix i)
           (new_attention_ln model_size prefix i)
           (new_feed_forward model_size feed_forward_num_hidden dropout prefix i)
           (new_feed_forward_ln model_size prefix i).

Definition post_norm (g : group) (x lengths : Symbol RNNCell) (max_len : Z)
    : Symbol RNNCell :=
  let attn_out := MultiHeadAttention_on (g_attention g) x lengths max_len in
  let x1 := LayerNormalization_normalize (g_attention_ln g) (sym_add x attn_out) in
  let ffn_out := FFNRelu_apply (g_feed_forward g) x1 max_len in
  let x2 := LayerNormalization_normalize (g_feed_forward_ln g) (sym_add x1 ffn_out) in
  x2.

(** The cells hold the objects of group [g]. *)
Definition bound_to (cells : gmap string object) (g : group) : Prop :=
  cells !! "attention" = Some (obj_MultiHeadAttention (g_attention g))
  /\ cells !! "attention_ln" = Some (obj_LayerNormalization (g_attention_ln g))
  /\ cells !! "feed_forward" = Some (obj_FFNRelu (g_feed_forward g))
  /\ cells !! "feed_forward_ln" = Some (obj_LayerNormalization (g_feed_forward_ln g)).

(** An encoder whose [encode] is the total function [f]. *)
Definition stage_of (f : Symbol RNNCell -> Symbol RNNCell -> Z -> Symbol RNNCell)
    : Encoder RNNCell :=
  mk_Encoder (fun data data_length seq_len => Ok (f data data_length seq_len))
             (Raise NotImplementedError) (Raise NotImplementedError).

(** The class that [get_encoder_rnn] passes as [encoder_class]. *)
Definition encoder_class_of (fused : bool) : encoder_class_t :=
  if fused then FusedRecurrentEncoder_class else RecurrentEncoder_class.

(** Rows of width [d]. *)
Definition rows_of_width (d : Z) (m : list (list elt)) : Prop :=
  Forall (fun r => Z.of_nat (length r) = d) m.

(** * Properties *)

(** ** EncoderSequence *)

Lemma fold_left_bind_Raise (encoders : list (Encoder RNNCell))
    (data_length : Symbol RNNCell) (seq_len : Z) (e : exn) :
  fold_left (fun acc encoder => doR d <- acc ; encode encoder d data_length seq_len)
    encoders (Raise e) = Raise e.
Proof. induction encoders as [|encoder rest IH]; simpl; [reflexivity | exact IH]. Qed.

Lemma EncoderSequence_encode_loop_fold (encoders : list (Encoder RNNCell))
    (data data_length : Symbol RNNCell) (seq_len : Z) :
  EncoderSequence_encode_loop encoders data data_length seq_len =
  fold_left (fun acc encoder => doR d <- acc ; encode encoder d data_length seq_len)
    encoders (Ok data).
Proof.
  revert data.
  induction encoders as [|encoder rest IH]; intros data; simpl; [reflexivity|].
  destruct (encode encoder data data_length seq_len) as [d|e]; simpl.
  - apply IH.
  - symmetry. apply fold_left_bind_Raise.
Qed.

(** C6. For every list of stages, input, vector of lengths and maximum
    length, [EncoderSequence.encode] is the left fold of the stages' [encode]
    over the input, in the order of the list given at construction; every
    stage is called with the same [data_length] and the same [seq_len].  A
    stage that raises ends the fold with its exception; when every stage is a
    total function the result is the plain left fold of these functions. *)
Theorem EncoderSequence_encode_is_fold_left :
  forall (encoders : list (Encoder RNNCell)) (data data_length : Symbol RNNCell) (seq_len : Z),
    run (EncoderSequence_init encoders) = Ok (mk_EncoderSequence encoders)
    /\ EncoderSequence_encode (mk_EncoderSequence encoders) data data_length seq_len =
       fold_left (fun acc encoder => doR d <- acc ; encode encoder d data_length seq_len)
         encoders (Ok data)
    /\ forall fs : list (Symbol RNNCell -> Symbol RNNCell -> Z -> Symbol RNNCell),
         EncoderSequence_encode (mk_EncoderSequence (map stage_of fs)) data data_length seq_len =
         Ok (fold_left (fun d f => f d data_length seq_len) fs data).
Proof.
  intros encoders data data_length seq_len.
  split; [reflexivity|]. split.
  - apply EncoderSequence_encode_loop_fold.
  - intros fs. unfold EncoderSequence_encode; simpl.
    revert data. induction fs as [|f fs IH]; intros data; simpl; [reflexivity | apply IH].
Qed.

(** C3, as the code has it.  [EncoderSequence.__init__] stores the list it is
    given and checks nothing: construction succeeds for every list, the empty
    one included.  On an empty sequence [encode] returns its input and
    [get_rnn_cells] the empty list; [get_num_hidden] is what fails, with an
    index error on [self.encoders[-1]]. *)
Theorem EncoderSequence_init_accepts_every_list :
  forall (encoders : list (Encoder RNNCell)) (data data_length : Symbol RNNCell) (seq_len : Z),
    EncoderSequence_init encoders [] = (Ok (mk_EncoderSequence encoders), [])
    /\ EncoderSequence_encode (mk_EncoderSequence []) data data_length seq_len = Ok data
    /\ EncoderSequence_get_rnn_cells (mk_EncoderSequence []) = Ok []
    /\ EncoderSequence_get_num_hidden (mk_EncoderSequence []) =
       Raise (IndexError "list index out of range").
Proof. intros. repeat split. Qed.

(** ** FusedRecurrentEncoder *)

(** C10. [FusedRecurrentEncoder.__init__] never reads [residual]: two
    constructions that differ only in that flag are the same computation, so
    they log the same warning, raise the same exception or build encoders with
    the same cells, and these encoders encode every input to the same
    symbol. *)
Theorem FusedRecurrentEncoder_residual_ignored :
  forall (num_hidden num_layers : Z) (prefix : string) (dropout : float)
         (layout cell_type : string) (forget_bias : float) (residual1 residual2 : bool)
         (log : list log_record),
    let c1 := FusedRecurrentEncoder_init num_hidden num_layers prefix dropout layout
                cell_type residual1 forget_bias log in
    let c2 := FusedRecurrentEncoder_init num_hidden num_layers prefix dropout layout
                cell_type residual2 forget_bias log in
    c1 = c2
    /\ match fst c1, fst c2 with
       | Ok e1, Ok e2 =>
           FusedRecurrentEncoder_get_rnn_cells e1 = FusedRecurrentEncoder_get_rnn_cells e2
           /\ forall data data_length seq_len,
                FusedRecurrentEncoder_encode e1 data data_length seq_len =
                FusedRecurrentEncoder_encode e2 data data_length seq_len
       | Raise x1, Raise x2 => x1 = x2
       | _, _ => False
       end.
Proof.
  intros nh nl pre dropout layout cell_type forget_bias residual1 residual2 log c1 c2.
  split; [reflexivity|].
  change c2 with c1.
  destruct (fst c1); [split|]; reflexivity.
Qed.

(** ** TransformerEncoder *)

Section transformer.

Variables (model_size attention_heads feed_forward_num_hidden : Z).
Variables (dropout : float) (pre : string).

Let body := TransformerEncoder_init_body model_size attention_heads feed_forward_num_hidden
              dropout pre.
Let grp := new_group model_size attention_heads feed_forward_num_hidden dropout pre.

Lemma init_body_layers (st : gmap string object * list function) (i : Z) :
  snd (body st i) = (snd st ++ [def_apply i])%list.
Proof. destruct st as [cells layers]. reflexivity. Qed.

Lemma init_body_bound (st : gmap string object * list function) (i : Z) :
  bound_to (fst (body st i)) (grp i).
Proof.
  destruct st as [cells layers]. unfold bound_to, body, grp; simpl.
  repeat split.
  - rewrite !lookup_insert_ne by discriminate. apply lookup_insert_eq.
  - rewrite !lookup_insert_ne by discriminate. apply lookup_insert_eq.
  - rewrite !lookup_insert_ne by discriminate. apply lookup_insert_eq.
  - apply lookup_insert_eq.
Qed.

Lemma init_loop_layers (idxs : list Z) (st : gmap string object * list function) :
  snd (fold_left body idxs st) = (snd st ++ map def_apply idxs)%list.
Proof.
  revert st. induction idxs as [|i idxs IH]; intros st; simpl.
  - symmetry. apply app_nil_r.
  - rewrite IH, init_body_layers, <- app_assoc. reflexivity.
Qed.

Lemma init_loop_bound (idxs : list Z) (i : Z) (st : gmap string object * list function) :
  bound_to (fst (fold_left body (idxs ++ [i]) st)) (grp i).
Proof. rewrite fold_left_app. simpl. apply init_body_bound. Qed.

Lemma TransformerEncoder_init_run (num_layers : Z) :
  let final := fold_left body (range num_layers) (∅, []) in
  TransformerEncoder_init model_size num_layers attention_heads feed_forward_num_hidden
    dropout pre [] =
  (Ok (mk_TransformerEncoder model_size num_layers attention_heads feed_forward_num_hidden
         dropout pre (snd final) (fst final)), []).
Proof.
  intros final. unfold TransformerEncoder_init. fold body. fold final.
  destruct final as [cells layers]. reflexivity.
Qed.

Lemma TransformerEncoder_apply_bound (cells : gmap string object) (g : group)
    (x data_length : Symbol RNNCell) (seq_len : Z) :
  bound_to cells g ->
  TransformerEncoder_apply cells x data_length seq_len = Ok (post_norm g x data_length seq_len).
Proof.
  intros (Ha & Haln & Hf & Hfln). unfold TransformerEncoder_apply, load_deref.
  rewrite Ha, Haln, Hf, Hfln. reflexivity.
Qed.

Lemma TransformerEncoder_encode_loop_bound (cells : gmap string object) (g : group)
    (layers : list function) (x data_length : Symbol RNNCell) (seq_len : Z) :
  bound_to cells g ->
  TransformerEncoder_encode_loop cells layers x data_length seq_len =
  Ok (fold_left (fun x g => post_norm g x data_length seq_len) (map (fun _ => g) layers) x).
Proof.
  intros Hb. revert x. induction layers as [|[i] layers IH]; intros x; simpl.
  - reflexivity.
  - rewrite (TransformerEncoder_apply_bound _ g) by exact Hb. simpl. apply IH.
Qed.

(** After a loop of at least one iteration, every function of [self.layers]
    reads the objects constructed by the last iteration. *)
Lemma TransformerEncoder_init_cells_last (k : nat) :
  bound_to (fst (fold_left body (range (Z.of_nat (S k))) (∅, []))) (grp (Z.of_nat k)).
Proof. unfold range. rewrite seqZ_S. apply init_loop_bound. Qed.

End transformer.

(** C7. A [TransformerEncoder] constructed with [num_layers = 0] has no
    layers, and its [encode] returns the symbol it is given. *)
Theorem TransformerEncoder_zero_layers_identity :
  forall (model_size attention_heads feed_forward_num_hidden : Z) (dropout : float)
         (pre : string),
  exists self : TransformerEncoder,
    run (TransformerEncoder_init model_size 0 attention_heads feed_forward_num_hidden
           dropout pre) = Ok self
    /\ TransformerEncoder_layers self = []
    /\ forall (data data_length : Symbol RNNCell) (seq_len : Z),
         TransformerEncoder_encode self data data_length seq_len = Ok data.
Proof.
  intros ms h f d pre. eexists.
  split; [reflexivity|].
  split; [reflexivity|].
  intros data dl sl. reflexivity.
Qed.

(** C4. A [TransformerEncoder] built with [num_layers = n] holds [n] layer
    functions.  There is a list of [n] sub-layer groups, each one of the
    groups constructed by the loop, such that the function at position [i]
    maps every [x] to the post-norm residual composition of group [i],
    [LayerNorm_ffn(x1 + FeedForward(x1))] with
    [x1 = LayerNorm_attn(x + SelfAttention(x, lengths, max_len))], and
    [encode] chains them: the output of a layer is the input of the next and
    the output of the last layer is the result. *)
Theorem TransformerEncoder_encode_post_norm_chain :
  forall (model_size num_layers attention_heads feed_forward_num_hidden : Z)
         (dropout : float) (pre : string) (data data_length : Symbol RNNCell) (seq_len : Z),
  exists (self : TransformerEncoder) (gs : list group),
    run (TransformerEncoder_init model_size num_layers attention_heads
           feed_forward_num_hidden dropout pre) = Ok self
    /\ length (TransformerEncoder_layers self) = Z.to_nat num_layers
    /\ Forall (fun g => exists i, 0 <= i < num_layers
                  /\ g = new_group model_size attention_heads feed_forward_num_hidden
                           dropout pre i) gs
    /\ Forall2 (fun layer g => forall x,
                  call (TransformerEncoder_cells self) layer x data_length seq_len =
                  Ok (post_norm g x data_length seq_len))
         (TransformerEncoder_layers self) gs
    /\ TransformerEncoder_encode self data data_length seq_len =
       Ok (fold_left (fun x g => post_norm g x data_length seq_len) gs data).
Proof.
  intros ms n h f d pre data dl sl.
  pose proof (TransformerEncoder_init_run ms h f d pre n) as Hrun. cbv zeta in Hrun.
  set (final := fold_left (TransformerEncoder_init_body ms h f d pre) (range n) (∅, [])) in *.
  assert (Hlayers : snd final = map def_apply (range n)).
  { unfold final. rewrite init_loop_layers. reflexivity. }
  eexists. exists (map (fun _ => new_group ms h f d pre (n - 1)) (snd final)).
  split; [unfold run; rewrite Hrun; reflexivity|]. simpl.
  split; [rewrite Hlayers, length_map; apply length_seqZ|].
  destruct (Z.to_nat n) as [|k] eqn:Hn.
  - assert (Hnil : range n = []) by (apply seqZ_nil; lia).
    rewrite Hlayers, Hnil. simpl. repeat split; constructor.
  - assert (n = Z.of_nat (S k)) as -> by lia.
    assert (Hb : bound_to (fst final) (new_group ms h f d pre (Z.of_nat (S k) - 1))).
    { replace (Z.of_nat (S k) - 1) with (Z.of_nat k) by lia.
      apply TransformerEncoder_init_cells_last. }
    repeat split.
    + apply Forall_fmap, Forall_true. intros layer. simpl.
      exists (Z.of_nat (S k) - 1). split; [lia | reflexivity].
    + apply Forall2_fmap_r, Forall_Forall2_diag, Forall_forall.
      intros [i] _ x. simpl. apply TransformerEncoder_apply_bound, Hb.
    + unfold TransformerEncoder_encode; simpl.
      apply TransformerEncoder_encode_loop_bound, Hb.
Qed.

(** ** BiDirectionalRNNEncoder *)

Lemma mbind_Ok {S A B} (m : ST S A) (f : A -> ST S B) (s : S) (a : A) :
  fst (m s) = Ok a -> mbind m f s = f a (snd (m s)).
Proof. unfold mbind. destruct (m s) as [r s']. simpl. intros ->. reflexivity. Qed.

Lemma layout_is_batch_major_nonempty (layout : string) :
  layout <> "" -> exists b, layout_is_batch_major layout = Ok b.
Proof.
  destruct layout as [|c rest]; [congruence|]. intros _.
  exists (bool_decide (c = "N"%char)). reflexivity.
Qed.

(** C1. The parity check is the first statement of
    [BiDirectionalRNNEncoder.__init__].  For an odd [num_hidden] the
    constructor raises the configuration error with its message, whatever the
    other arguments are and before the layout is looked at, anything is logged
    or [encoder_class] is called; no object exists on which [encode] could be
    called.  For an even [num_hidden] the check passes and, given a non-empty
    layout string and an [encoder_class] that builds the two halves, the
    constructor returns the encoder with [num_hidden] as given and the halves
    built with [num_hidden // 2]. *)
Theorem BiDirectionalRNNEncoder_init_checks_parity :
  forall (num_hidden num_layers : Z) (pre : string) (dropout : float)
         (layout cell_type : string) (encoder_class : encoder_class_t) (forget_bias : float)
         (forward_rnn reverse_rnn : Encoder RNNCell),
    (Z.odd num_hidden = true ->
     forall log,
       BiDirectionalRNNEncoder_init num_hidden num_layers pre dropout layout cell_type
         encoder_class forget_bias log =
       (Raise (SockeyeError "num_hidden must be a multiple of 2 for BiDirectionalRNNEncoders."),
        log))
    /\ (Z.even num_hidden = true ->
        layout <> "" ->
        (forall log, fst (encoder_class (num_hidden `div` 2) num_layers (pre ++ FORWARD_PREFIX C)
                            dropout (TIME_MAJOR C) cell_type forget_bias log) = Ok forward_rnn) ->
        (forall log, fst (encoder_class (num_hidden `div` 2) num_layers (pre ++ REVERSE_PREFIX C)
                            dropout (TIME_MAJOR C) cell_type forget_bias log) = Ok reverse_rnn) ->
        run (BiDirectionalRNNEncoder_init num_hidden num_layers pre dropout layout cell_type
               encoder_class forget_bias) =
        Ok (mk_BiDirectionalRNNEncoder num_hidden forward_rnn reverse_rnn layout pre)).
Proof.
  intros n nl pre d layout ct ec fb fwd rev. split.
  - intros Hodd log. unfold BiDirectionalRNNEncoder_init.
    unfold check_condition.
    rewrite bool_decide_eq_false_2; [reflexivity|].
    rewrite Zmod_odd, Hodd. discriminate.
  - intros Heven Hlayout Hfwd Hrev. unfold run, BiDirectionalRNNEncoder_init.
    assert (Hmod : n `mod` 2 = 0).
    { rewrite Zmod_even, Heven. reflexivity. }
    rewrite (mbind_Ok _ _ _ tt) by (unfold check_condition; rewrite bool_decide_eq_true_2; done).
    destruct (layout_is_batch_major_nonempty layout Hlayout) as [b Hb].
    rewrite (mbind_Ok _ _ _ b) by (unfold lift; rewrite Hb; reflexivity).
    rewrite (mbind_Ok _ _ _ tt) by (destruct b; reflexivity).
    rewrite (mbind_Ok _ _ _ fwd) by apply Hfwd.
    rewrite (mbind_Ok _ _ _ rev) by apply Hrev.
    reflexivity.
Qed.

(** What [_encode] and [encode] build, for any two halves that encode
    their inputs. *)
Lemma BiDirectionalRNNEncoder__encode_concat (self : BiDirectionalRNNEncoder)
    (data data_length hidden_forward hidden_reverse : Symbol RNNCell) (seq_len : Z) :
  encode (BiDirectionalRNNEncoder_forward_rnn self) data data_length seq_len
    = Ok hidden_forward ->
  encode (BiDirectionalRNNEncoder_reverse_rnn self)
    (sym_SequenceReverse data data_length true) data_length seq_len = Ok hidden_reverse ->
  BiDirectionalRNNEncoder__encode self data data_length seq_len =
  Ok (sym_concat hidden_forward (sym_SequenceReverse hidden_reverse data_length true) 2
        (BiDirectionalRNNEncoder_prefix self ++ "_rnn")).
Proof.
  intros Hf Hr. unfold BiDirectionalRNNEncoder__encode. rewrite Hf. simpl. rewrite Hr.
  reflexivity.
Qed.

Lemma mbind_inv {S A B} (m : ST S A) (f : A -> ST S B) (s s' : S) (b : B) :
  mbind m f s = (Ok b, s') -> exists a s1, m s = (Ok a, s1) /\ f a s1 = (Ok b, s').
Proof.
  unfold mbind. destruct (m s) as [[a|e] s1]; intros H.
  - exists a, s1. split; [reflexivity | exact H].
  - discriminate H.
Qed.

Lemma encoder_class_of_inv (fused : bool) (num_hidden num_layers : Z) (pre : string)
    (dropout : float) (layout cell_type : string) (forget_bias : float)
    (log log' : list log_record) (e : Encoder RNNCell) :
  encoder_class_of fused num_hidden num_layers pre dropout layout cell_type forget_bias log
    = (Ok e, log') ->
  exists cell : RNNCell,
    get_rnn_cells e = Ok [cell]
    /\ get_num_hidden e = Ok num_hidden
    /\ forall data data_length seq_len,
         encode e data data_length seq_len = Ok (rnn_unroll cell seq_len data true layout).
Proof.
  destruct fused; simpl; intros H.
  - unfold FusedRecurrentEncoder_class in H.
    apply mbind_inv in H as (enc & l1 & Hinit & Hret). injection Hret as <- _.
    unfold FusedRecurrentEncoder_init in Hinit.
    apply mbind_inv in Hinit as ([] & l2 & _ & Hinit).
    apply mbind_inv in Hinit as (cell & l3 & _ & Hret). injection Hret as <- _.
    exists cell. repeat split.
  - unfold RecurrentEncoder_class in H.
    apply mbind_inv in H as (enc & l1 & Hinit & Hret). injection Hret as <- _.
    unfold RecurrentEncoder_init in Hinit.
    apply mbind_inv in Hinit as (cell & l2 & _ & Hret). injection Hret as <- _.
    exists cell. repeat split.
Qed.

(** C5. Take a [BiDirectionalRNNEncoder] built from one of the two recurrent
    encoder classes, with forward cell [cell_f] and reverse cell [cell_r].
    For time-major data, [encode] declares the length-aware reversal of the
    input ([SequenceReverse] with [use_sequence_length] set and the lengths
    of the batch), unrolls the forward cell over the input and the reverse
    cell over the reversed input, reverses the reverse output again with the
    same lengths, and concatenates the forward and the re-reversed output
    along axis 2.  Both halves have [num_hidden // 2] hidden units, which add
    up to [num_hidden].  With a batch-major layout the input is swapped to
    time-major first and the result is swapped back. *)
Theorem BiDirectionalRNNEncoder_encode_graph :
  forall (fused : bool) (num_hidden num_layers : Z) (pre : string) (dropout : float)
         (layout cell_type : string) (forget_bias : float) (log log' : list log_record)
         (self : BiDirectionalRNNEncoder) (data data_length : Symbol RNNCell) (seq_len : Z),
    BiDirectionalRNNEncoder_init num_hidden num_layers pre dropout layout cell_type
      (encoder_class_of fused) forget_bias log = (Ok self, log') ->
    exists (cell_f cell_r : RNNCell) (batch_major : bool),
      layout_is_batch_major layout = Ok batch_major
      /\ BiDirectionalRNNEncoder_get_rnn_cells self = Ok [cell_f; cell_r]
      /\ (let swap x := if batch_major then sym_swapaxes x 0 1 None else x in
          let x := swap data in
          let x_reverse := sym_SequenceReverse x data_length true in
          let hidden_forward := rnn_unroll cell_f seq_len x true (TIME_MAJOR C) in
          let hidden_reverse := rnn_unroll cell_r seq_len x_reverse true (TIME_MAJOR C) in
          BiDirectionalRNNEncoder_encode self data data_length seq_len =
          Ok (swap (sym_concat hidden_forward
                      (sym_SequenceReverse hidden_reverse data_length true) 2
                      (pre ++ "_rnn"))))
      /\ get_num_hidden (BiDirectionalRNNEncoder_forward_rnn self) = Ok (num_hidden `div` 2)
      /\ get_num_hidden (BiDirectionalRNNEncoder_reverse_rnn self) = Ok (num_hidden `div` 2)
      /\ num_hidden `div` 2 + num_hidden `div` 2 = num_hidden
      /\ BiDirectionalRNNEncoder_get_num_hidden self = Ok num_hidden.
Proof.
  intros fused n nl pre d layout ct fb log log' self data dl sl Hinit.
  unfold BiDirectionalRNNEncoder_init in Hinit.
  apply mbind_inv in Hinit as ([] & l1 & Hcheck & Hinit).
  apply mbind_inv in Hinit as (b & l2 & Hlayout & Hinit).
  apply mbind_inv in Hinit as ([] & l3 & _ & Hinit).
  apply mbind_inv in Hinit as (fwd & l4 & Hfwd & Hinit).
  apply mbind_inv in Hinit as (rev & l5 & Hrev & Hret).
  injection Hret as <- _.
  assert (Hmod : n `mod` 2 = 0).
  { unfold check_condition in Hcheck. case_bool_decide; [assumption | discriminate Hcheck]. }
  assert (Hb : layout_is_batch_major layout = Ok b).
  { unfold lift in Hlayout. injection Hlayout as -> _. reflexivity. }
  apply encoder_class_of_inv in Hfwd as (cell_f & Hcf & Hnf & Hef).
  apply encoder_class_of_inv in Hrev as (cell_r & Hcr & Hnr & Her).
  exists cell_f, cell_r, b. simpl.
  split; [exact Hb|]. split.
  { unfold BiDirectionalRNNEncoder_get_rnn_cells; simpl. rewrite Hcf, Hcr. reflexivity. }
  split.
  { unfold BiDirectionalRNNEncoder_encode; simpl. rewrite Hb; simpl.
    rewrite (BiDirectionalRNNEncoder__encode_concat
               (mk_BiDirectionalRNNEncoder n fwd rev layout pre) _ _ _ _ _
               (Hef _ _ _) (Her _ _ _)).
    reflexivity. }
  repeat split; try assumption.
  pose proof (Z.div_mod n 2). lia.
Qed.

(** ** Initializers *)

Lemma StackedOrthogonalInit_loop_unknown (scale : float) (rand_type : string) (base_dim : Z)
    (mat_idx : Z) (rest : list Z) (s : init_state) :
  rand_type <> "uniform" -> rand_type <> "normal" -> rand_type <> "eye" ->
  StackedOrthogonalInit_loop scale rand_type base_dim (mat_idx :: rest) s =
  (Raise (ValueError ("unknown rand_type " ++ rand_type)), s).
Proof.
  intros Hu Hn He. simpl.
  destruct (decide (rand_type = "uniform")); [contradiction|].
  destruct (decide (rand_type = "normal")); [contradiction|].
  destruct (decide (rand_type = "eye")); [contradiction|].
  reflexivity.
Qed.

(** A weight without a block: the test of [rand_type] sits in the loop body,
    which does not run, so nothing is raised and the array is left as it
    is. *)
Lemma StackedOrthogonalInit_init_weight_no_block (scale : float)
    (rand_type sym_name : string) (st : init_state) (base_dim : Z) :
  shape (st_arr st) = [0; base_dim] -> base_dim <> 0 ->
  exists msg,
    StackedOrthogonalInit_init_weight scale rand_type sym_name st =
    (Ok tt, mk_init_state (st_arr st) (st_rng st) (st_log st ++ [mk_log INFO msg])%list).
Proof.
  intros Hshape Hbase. eexists.
  unfold StackedOrthogonalInit_init_weight, mbind, gets.
  rewrite Hshape. cbn [length nth].
  unfold lift, modulo, floordiv, assert, ret.
  destruct (decide (base_dim = 0)); [contradiction|].
  rewrite Zmod_0_l, Zdiv_0_l.
  rewrite (bool_decide_eq_true_2 (Z.of_nat 2 = 2)) by reflexivity. cbv beta iota.
  rewrite (bool_decide_eq_true_2 (0 = 0)) by reflexivity. cbv beta iota.
  reflexivity.
Qed.

(** C9. [get_initializer] raises [ValueError] naming the tag for every
    [rnn_init_type] that is neither of the two orthogonal tags, and logs
    nothing.  [StackedOrthogonalInit._init_weight], given a two-dimensional
    weight of at least one square block, raises [ValueError] naming the tag
    for every [rand_type] other than "uniform", "normal" and "eye", on its
    first block; the array and the random state are left as they were, so
    nothing stands in for the unknown tag. *)
Theorem unknown_initializer_tag_raises :
  forall (rnn_init_type : string) (lexicon : option NDArray) (log : list log_record)
         (scale : float) (rand_type sym_name : string) (st : init_state)
         (stacked_dim base_dim : Z),
    (rnn_init_type <> RNN_INIT_ORTHOGONAL C ->
     rnn_init_type <> RNN_INIT_ORTHOGONAL_STACKED C ->
     get_initializer rnn_init_type lexicon log =
     (Raise (ValueError ("unknown rnn initialization type: " ++ rnn_init_type)), log))
    /\ (rand_type <> "uniform" -> rand_type <> "normal" -> rand_type <> "eye" ->
        shape (st_arr st) = [stacked_dim; base_dim] ->
        0 < base_dim -> 0 < stacked_dim -> stacked_dim `mod` base_dim = 0 ->
        exists msg,
          StackedOrthogonalInit_init_weight scale rand_type sym_name st =
          (Raise (ValueError ("unknown rand_type " ++ rand_type)),
           mk_init_state (st_arr st) (st_rng st) (st_log st ++ [mk_log INFO msg])%list)).
Proof.
  intros t lexicon log scale rand_type sym_name st stacked base. split.
  - intros H1 H2. unfold get_initializer.
    destruct (decide (t = RNN_INIT_ORTHOGONAL C)); [contradiction|].
    destruct (decide (t = RNN_INIT_ORTHOGONAL_STACKED C)); [contradiction|].
    reflexivity.
  - intros Hu Hn He Hshape Hbase Hstacked Hmod.
    assert (Hnum : 0 < stacked `div` base).
    { apply Z.div_str_pos. split; [lia|].
      pose proof (Z.div_mod stacked base ltac:(lia)) as Hdm. rewrite Hmod in Hdm.
      destruct (Z_lt_le_dec (stacked `div` base) 1); nia. }
    eexists.
    unfold StackedOrthogonalInit_init_weight, mbind, gets.
    rewrite Hshape. cbn [length nth]. 
    unfold lift, modulo, floordiv, assert, ret.
    destruct (decide (base = 0)); [lia|].
    rewrite Hmod.
    rewrite (bool_decide_eq_true_2 (Z.of_nat 2 = 2)) by reflexivity. cbv beta iota.
    rewrite (bool_decide_eq_true_2 (0 = 0)) by reflexivity. cbv beta iota.
    unfold st_logger_info, modify.
    rewrite (seqZ_cons 0 (stacked `div` base)) by exact Hnum.
    rewrite StackedOrthogonalInit_loop_unknown by assumption.
    reflexivity.
Qed.

(** ** Embedding *)

Lemma zip_all_pointwise {A B} (f : A -> A -> option B) (g : A -> A -> B) (xs ys : list A) :
  Forall2 (fun x y => f x y = Some (g x y)) xs ys ->
  zip_all f xs ys = Some (zip_with g xs ys).
Proof.
  induction 1 as [|x y xs ys Hxy _ IH]; simpl; [reflexivity|].
  rewrite Hxy, IH. reflexivity.
Qed.

Lemma map_all_pointwise {A B} (f : A -> option B) (g : A -> B) (xs : list A) :
  Forall (fun x => f x = Some (g x)) xs -> map_all f xs = Some (map g xs).
Proof.
  induction 1 as [|x xs Hx _ IH]; simpl; [reflexivity|].
  rewrite Hx, IH. reflexivity.
Qed.

Lemma broadcast_axis_same {A B} (f : A -> A -> option B) (g : A -> A -> B) (xs ys : list A) :
  Forall2 (fun x y => f x y = Some (g x y)) xs ys ->
  broadcast_axis f xs ys = Some (zip_with g xs ys).
Proof.
  intros H. unfold broadcast_axis.
  rewrite bool_decide_eq_true_2 by (eapply Forall2_length; eassumption).
  apply zip_all_pointwise, H.
Qed.

Lemma broadcast_axis_one {A B} (f : A -> A -> option B) (g : A -> B) (xs : list A) (y : A) :
  Forall (fun x => f x y = Some (g x)) xs ->
  broadcast_axis f xs [y] = Some (map g xs).
Proof.
  intros H. unfold broadcast_axis. case_bool_decide as Hlen.
  - destruct xs as [|x [|x' xs]]; try discriminate Hlen.
    simpl. inversion H as [|? ? Hx _]; subst. rewrite Hx. reflexivity.
  - destruct xs as [|x [|x' xs]]; [reflexivity | | ]; apply map_all_pointwise, H.
Qed.

Lemma forallb_rows_of_width (d : Z) (m : list (list elt)) :
  forallb (fun r => bool_decide (Z.of_nat (length r) = d)) m = true <-> rows_of_width d m.
Proof.
  unfold rows_of_width. rewrite forallb_forall, Forall_forall.
  split; intros H r Hr.
  - apply list_elem_of_In, H in Hr. apply bool_decide_eq_true_1 in Hr. exact Hr.
  - apply bool_decide_eq_true_2, H, list_elem_of_In, Hr.
Qed.

Lemma has_shape_V2 (m : list (list elt)) (n d : Z) :
  has_shape (V2 m) [n; d] = true <-> Z.of_nat (length m) = n /\ rows_of_width d m.
Proof.
  simpl. rewrite andb_true_iff, bool_decide_eq_true, forallb_rows_of_width. reflexivity.
Qed.

Lemma has_shape_V3 (t : list (list (list elt))) (b n d : Z) :
  has_shape (V3 t) [b; n; d] = true <->
  Z.of_nat (length t) = b
  /\ Forall (fun m => Z.of_nat (length m) = n /\ rows_of_width d m) t.
Proof.
  simpl. rewrite andb_true_iff, bool_decide_eq_true, forallb_forall, Forall_forall.
  split; intros [Hb H]; (split; [exact Hb|]); intros m Hm.
  - apply list_elem_of_In, H in Hm. apply (has_shape_V2 m n d) in Hm. exact Hm.
  - apply (has_shape_V2 m n d), H, list_elem_of_In, Hm.
Qed.

Lemma add1_same_width (d : Z) (r1 r2 : list elt) :
  Z.of_nat (length r1) = d -> Z.of_nat (length r2) = d ->
  add1 r1 r2 = Some (zip_with elt_add r1 r2).
Proof.
  intros H1 H2. apply broadcast_axis_same.
  apply Forall2_same_length_lookup_2; [lia|]. intros; reflexivity.
Qed.

Lemma add2_same_shape (d : Z) (m1 m2 : list (list elt)) :
  length m1 = length m2 -> rows_of_width d m1 -> rows_of_width d m2 ->
  add2 m1 m2 = Some (zip_with (zip_with elt_add) m1 m2).
Proof.
  intros Hlen H1 H2. apply broadcast_axis_same.
  apply Forall2_same_length_lookup_2; [exact Hlen|].
  intros i r1 r2 Hr1 Hr2. apply (add1_same_width d).
  - exact (Forall_lookup_1 _ m1 i r1 H1 Hr1).
  - exact (Forall_lookup_1 _ m2 i r2 H2 Hr2).
Qed.

Lemma slice_axis0_prefix {A} (l : list A) (end_ : Z) :
  1 <= end_ <= Z.of_nat (length l) ->
  slice_axis0 l 0 end_ = Some (take (Z.to_nat end_) l).
Proof.
  intros H. unfold slice_axis0.
  rewrite (bool_decide_eq_false_2 (0 < 0)) by lia.
  rewrite (bool_decide_eq_false_2 (end_ < 0)) by lia.
  rewrite !bool_decide_eq_true_2 by lia. simpl.
  rewrite Z.sub_0_r. reflexivity.
Qed.

Lemma slice_axis0_beyond {A} (l : list A) (end_ : Z) :
  Z.of_nat (length l) < end_ -> slice_axis0 l 0 end_ = None.
Proof.
  intros H. unfold slice_axis0.
  rewrite (bool_decide_eq_false_2 (0 < 0)) by lia.
  rewrite (bool_decide_eq_false_2 (end_ < 0)) by lia.
  rewrite (bool_decide_eq_false_2 (0 <= end_ <= _)) by lia. reflexivity.
Qed.

Lemma eval_get_positional_encoding (self : Embedding) (seq_len : Z)
    (env : gmap string value) (table : list (list elt)) :
  env !! (Embedding_prefix self ++ "positional_encodings") = Some (V2 table) ->
  has_shape (V2 table) [500; Embedding_num_embed self] = true ->
  eval env (Embedding_get_positional_encoding self seq_len) =
  dbind (slice_axis_value (V2 table) 0 0 seq_len) (fun v => expand_dims_value v 0).
Proof.
  intros Henv Hshape. unfold Embedding_get_positional_encoding. cbn [eval].
  rewrite Henv, Hshape. reflexivity.
Qed.

Lemma eval_Embedding_encode (self : Embedding) (data data_length : Symbol RNNCell)
    (seq_len : Z) (env : gmap string value) :
  Embedding_add_positional_encoding self = true ->
  exists out,
    Embedding_encode self data data_length seq_len = Ok out
    /\ eval env out =
       dbind (eval env (sym_Embedding data (Embedding_vocab_size self)
                          (Embedding_embed_weight self) (Embedding_num_embed self)
                          (Embedding_prefix self ++ "embed")))
         (fun a => dbind (eval env (Embedding_get_positional_encoding self seq_len))
                     (fun b => broadcast_add_values a b)).
Proof.
  intros Hadd. unfold Embedding_encode. rewrite Hadd.
  destruct (PrimFloat.ltb 0 (Embedding_dropout self)); eexists; split; reflexivity.
Qed.

(** C8. Take an [Embedding] with positional encoding enabled, an environment
    that binds its positional variable to a table of shape [(500, num_embed)],
    and data whose looked-up embeddings have shape
    [(batch, seq_len, num_embed)].  For [1 <= seq_len <= 500] the positional
    operand is the first [seq_len] rows of the table under a leading axis of
    size one, and [encode] evaluates to the embeddings with these rows added
    to every example of the batch.  For [seq_len > 500] the slice is rejected
    as out of bounds and [encode] has no value. *)
Theorem Embedding_encode_adds_table_prefix :
  forall (self : Embedding) (data data_length : Symbol RNNCell) (seq_len batch : Z)
         (env : gmap string value) (table : list (list elt))
         (embedded : list (list (list elt))),
    Embedding_add_positional_encoding self = true ->
    env !! (Embedding_prefix self ++ "positional_encodings") = Some (V2 table) ->
    has_shape (V2 table) [500; Embedding_num_embed self] = true ->
    eval env (sym_Embedding data (Embedding_vocab_size self) (Embedding_embed_weight self)
                (Embedding_num_embed self) (Embedding_prefix self ++ "embed"))
      = Defined (V3 embedded) ->
    has_shape (V3 embedded) [batch; seq_len; Embedding_num_embed self] = true ->
    exists out,
      Embedding_encode self data data_length seq_len = Ok out
      /\ (1 <= seq_len <= 500 ->
          eval env (Embedding_get_positional_encoding self seq_len) =
            Defined (V3 [take (Z.to_nat seq_len) table])
          /\ eval env out =
             Defined (V3 (map (fun example =>
                                 zip_with (zip_with elt_add) example
                                   (take (Z.to_nat seq_len) table))
                              embedded)))
      /\ (500 < seq_len ->
          eval env (Embedding_get_positional_encoding self seq_len) =
            Undefined "slice_axis: invalid begin, end"
          /\ forall v, eval env out <> Defined v).
Proof.
  intros self data dl sl batch env table emb Hadd Henv Htable Hemb Hshape.
  destruct (eval_Embedding_encode self data dl sl env Hadd) as (out & Hout & Heval).
  exists out. split; [exact Hout|].
  rewrite Heval, Hemb. cbn [dbind].
  rewrite (eval_get_positional_encoding self sl env table Henv Htable).
  apply has_shape_V2 in Htable as [Hlen Hrows].
  apply has_shape_V3 in Hshape as [_ Hexamples].
  unfold slice_axis_value. rewrite bool_decide_eq_true_2 by reflexivity.
  split.
  - intros Hsl. rewrite slice_axis0_prefix by lia. simpl.
    split; [reflexivity|].
    unfold add3.
    rewrite (broadcast_axis_one add2
               (fun example => zip_with (zip_with elt_add) example (take (Z.to_nat sl) table))).
    + reflexivity.
    + eapply Forall_impl; [exact Hexamples|]. simpl. intros example [Hn Hw].
      apply (add2_same_shape (Embedding_num_embed self)).
      * rewrite length_take. lia.
      * exact Hw.
      * apply Forall_take, Hrows.
  - intros Hsl. rewrite slice_axis0_beyond by lia. simpl.
    split; [reflexivity | discriminate].
Qed.

(** ** More on EncoderSequence *)

(** [encode] over a concatenation of stage lists is the first list followed
    by the second; an exception raised in the first list is the result and the
    stages of the second list are not run. *)
Theorem EncoderSequence_encode_app :
  forall (encoders1 encoders2 : list (Encoder RNNCell)) (data data_length : Symbol RNNCell)
         (seq_len : Z),
    EncoderSequence_encode (mk_EncoderSequence (encoders1 ++ encoders2)) data data_length
      seq_len =
    (doR d <- EncoderSequence_encode (mk_EncoderSequence encoders1) data data_length seq_len ;
     EncoderSequence_encode (mk_EncoderSequence encoders2) d data_length seq_len).
Proof.
  intros es1 es2 data dl sl. unfold EncoderSequence_encode; simpl.
  revert data. induction es1 as [|e es1 IH]; intros data; simpl; [reflexivity|].
  destruct (encode e data dl sl) as [d|x]; simpl; [apply IH | reflexivity].
Qed.

Lemma EncoderSequence_get_rnn_cells_loop_acc (encoders : list (Encoder RNNCell))
    (cells : list RNNCell) :
  EncoderSequence_get_rnn_cells_loop encoders cells =
  (doR cs <- EncoderSequence_get_rnn_cells_loop encoders [] ; Ok (cells ++ cs)%list).
Proof.
  revert cells. induction encoders as [|e es IH]; intros cells; simpl.
  - rewrite app_nil_r. reflexivity.
  - destruct (get_rnn_cells e) as [cs|x]; simpl; [|reflexivity].
    rewrite (IH (cells ++ cs)%list), (IH cs).
    destruct (EncoderSequence_get_rnn_cells_loop es []) as [cs'|x]; simpl; [|reflexivity].
    rewrite app_assoc. reflexivity.
Qed.

Lemma EncoderSequence_get_rnn_cells_loop_app (encoders1 encoders2 : list (Encoder RNNCell))
    (cells : list RNNCell) :
  EncoderSequence_get_rnn_cells_loop (encoders1 ++ encoders2) cells =
  (doR cs <- EncoderSequence_get_rnn_cells_loop encoders1 cells ;
   EncoderSequence_get_rnn_cells_loop encoders2 cs).
Proof.
  revert cells. induction encoders1 as [|e es IH]; intros cells; simpl; [reflexivity|].
  destruct (get_rnn_cells e) as [cs|x]; simpl; [apply IH | reflexivity].
Qed.

(** [get_rnn_cells] of a sequence whose stages report their cells is the
    concatenation of the stages' lists, in stage order. *)
Theorem EncoderSequence_get_rnn_cells_concat :
  forall (encoders : list (Encoder RNNCell)) (cells : list (list RNNCell)),
    Forall2 (fun encoder cs => get_rnn_cells encoder = Ok cs) encoders cells ->
    EncoderSequence_get_rnn_cells (mk_EncoderSequence encoders) = Ok (concat cells).
Proof.
  intros es css H. unfold EncoderSequence_get_rnn_cells; simpl.
  induction H as [|e cs es css He _ IH]; simpl; [reflexivity|].
  rewrite He; simpl. rewrite EncoderSequence_get_rnn_cells_loop_acc, IH. reflexivity.
Qed.

(** [get_num_hidden] of a non-empty sequence is the answer of its last
    stage, whatever the stages before it report. *)
Theorem EncoderSequence_get_num_hidden_last :
  forall (encoders : list (Encoder RNNCell)) (encoder : Encoder RNNCell),
    EncoderSequence_get_num_hidden (mk_EncoderSequence (encoders ++ [encoder])) =
    get_num_hidden encoder.
Proof.
  intros es e. unfold EncoderSequence_get_num_hidden, list_last; simpl.
  rewrite last_snoc. reflexivity.
Qed.

(** A sequence used as a stage of another sequence behaves as its stages
    spliced in at that place, for [encode] and for [get_rnn_cells]. *)
Theorem EncoderSequence_nested_is_spliced :
  forall (before inner after : list (Encoder RNNCell)) (data data_length : Symbol RNNCell)
         (seq_len : Z),
    let nested :=
      mk_EncoderSequence
        (before ++ EncoderSequence_Encoder (mk_EncoderSequence inner) :: after) in
    let spliced := mk_EncoderSequence (before ++ inner ++ after) in
    EncoderSequence_encode nested data data_length seq_len =
    EncoderSequence_encode spliced data data_length seq_len
    /\ EncoderSequence_get_rnn_cells nested = EncoderSequence_get_rnn_cells spliced.
Proof.
  intros before inner after data dl sl nested spliced. subst nested spliced. split.
  - rewrite (EncoderSequence_encode_app before (_ :: after)).
    rewrite (EncoderSequence_encode_app before (inner ++ after)).
    destruct (EncoderSequence_encode (mk_EncoderSequence before) data dl sl) as [d|x];
      simpl; [|reflexivity].
    rewrite (EncoderSequence_encode_app inner after).
    reflexivity.
  - unfold EncoderSequence_get_rnn_cells; simpl.
    rewrite !EncoderSequence_get_rnn_cells_loop_app.
    destruct (EncoderSequence_get_rnn_cells_loop before []) as [cs|x]; simpl; [|reflexivity].
    rewrite (EncoderSequence_get_rnn_cells_loop_app inner after).
    rewrite (EncoderSequence_get_rnn_cells_loop_acc inner cs).
    unfold EncoderSequence_get_rnn_cells; simpl.
    destruct (EncoderSequence_get_rnn_cells_loop inner []) as [cs'|x]; reflexivity.
Qed.

(** ** More on TransformerEncoder and the transformer builder *)

Lemma TransformerEncoder_init_any_log (model_size num_layers attention_heads
    feed_forward_num_hidden : Z) (dropout : float) (pre : string) (log : list log_record) :
  let final :=
    fold_left (TransformerEncoder_init_body model_size attention_heads
                 feed_forward_num_hidden dropout pre) (range num_layers) (∅, []) in
  TransformerEncoder_init model_size num_layers attention_heads feed_forward_num_hidden
    dropout pre log =
  (Ok (mk_TransformerEncoder model_size num_layers attention_heads feed_forward_num_hidden
         dropout pre (snd final) (fst final)), log).
Proof.
  intros final. unfold TransformerEncoder_init. fold final.
  destruct final as [cells layers]. reflexivity.
Qed.

Lemma TransformerEncoder_init_groups (model_size num_layers attention_heads
    feed_forward_num_hidden : Z) (dropout : float) (pre : string)
    (data_length : Symbol RNNCell) (seq_len : Z) :
  let final :=
    fold_left (TransformerEncoder_init_body model_size attention_heads
                 feed_forward_num_hidden dropout pre) (range num_layers) (∅, []) in
  exists gs : list group,
    length gs = Z.to_nat num_layers
    /\ Forall (fun g => exists i, 0 <= i < num_layers
                  /\ g = new_group model_size attention_heads feed_forward_num_hidden
                           dropout pre i) gs
    /\ forall x,
         TransformerEncoder_encode_loop (fst final) (snd final) x data_length seq_len =
         Ok (fold_left (fun x g => post_norm g x data_length seq_len) gs x).
Proof.
  intros final.
  assert (Hlayers : snd final = map def_apply (range num_layers)).
  { unfold final. rewrite init_loop_layers. reflexivity. }
  exists (map (fun _ => new_group model_size attention_heads feed_forward_num_hidden
                          dropout pre (num_layers - 1)) (snd final)).
  split; [rewrite Hlayers, !length_map; apply length_seqZ|].
  destruct (Z.to_nat num_layers) as [|k] eqn:Hn.
  - assert (Hnil : range num_layers = []) by (apply seqZ_nil; lia).
    rewrite Hlayers, Hnil. simpl. split; [constructor | reflexivity].
  - assert (Hk : num_layers = Z.of_nat (S k)) by lia.
    assert (Hb : bound_to (fst final)
                   (new_group model_size attention_heads feed_forward_num_hidden dropout pre
                      (num_layers - 1))).
    { unfold final. rewrite Hk.
      replace (Z.of_nat (S k) - 1) with (Z.of_nat k) by lia.
      apply TransformerEncoder_init_cells_last. }
    split.
    + apply Forall_fmap, Forall_true. intros layer. simpl.
      exists (num_layers - 1). split; [lia | reflexivity].
    + intros x. apply TransformerEncoder_encode_loop_bound, Hb.
Qed.

(** A [TransformerEncoder] accepts a negative [num_layers] without complaint
    and then behaves as with none: it has no layers and [encode] returns its
    input. *)
Theorem TransformerEncoder_nonpositive_layers_identity :
  forall (model_size num_layers attention_heads feed_forward_num_hidden : Z)
         (dropout : float) (pre : string),
    num_layers <= 0 ->
    exists self : TransformerEncoder,
      run (TransformerEncoder_init model_size num_layers attention_heads
             feed_forward_num_hidden dropout pre) = Ok self
      /\ TransformerEncoder_num_layers self = num_layers
      /\ TransformerEncoder_layers self = []
      /\ forall (data data_length : Symbol RNNCell) (seq_len : Z),
           TransformerEncoder_encode self data data_length seq_len = Ok data.
Proof.
  intros ms n h f d pre Hn. eexists.
  unfold run. rewrite TransformerEncoder_init_any_log.
  unfold range. rewrite seqZ_nil by exact Hn. simpl.
  repeat split.
Qed.


(** ** More on BiDirectionalRNNEncoder and the recurrent builder *)

(** With an even [num_hidden] and an empty layout string the constructor
    fails on [layout[0]] with an index error, before [encoder_class] is
    called. *)
Theorem BiDirectionalRNNEncoder_init_empty_layout :
  forall (num_hidden num_layers : Z) (pre : string) (dropout : float) (cell_type : string)
         (encoder_class : encoder_class_t) (forget_bias : float) (log : list log_record),
    Z.even num_hidden = true ->
    BiDirectionalRNNEncoder_init num_hidden num_layers pre dropout "" cell_type
      encoder_class forget_bias log =
    (Raise (IndexError "string index out of range"), log).
Proof.
  intros n nl pre d ct ec fb log Heven. unfold BiDirectionalRNNEncoder_init.
  rewrite (mbind_Ok _ _ _ tt).
  - unfold check_condition. rewrite bool_decide_eq_true_2; [reflexivity|].
    rewrite Zmod_even, Heven. reflexivity.
  - unfold check_condition. rewrite bool_decide_eq_true_2; [reflexivity|].
    rewrite Zmod_even, Heven. reflexivity.
Qed.

Lemma BiDirectionalRNNEncoder_init_inv (fused : bool) (num_hidden num_layers : Z)
    (pre : string) (dropout : float) (layout cell_type : string) (forget_bias : float)
    (log log' : list log_record) (self : BiDirectionalRNNEncoder) :
  BiDirectionalRNNEncoder_init num_hidden num_layers pre dropout layout cell_type
    (encoder_class_of fused) forget_bias log = (Ok self, log') ->
  num_hidden `mod` 2 = 0
  /\ BiDirectionalRNNEncoder_num_hidden self = num_hidden
  /\ exists cell_f cell_r : RNNCell,
       BiDirectionalRNNEncoder_get_rnn_cells self = Ok [cell_f; cell_r].
Proof.
  intros Hinit. unfold BiDirectionalRNNEncoder_init in Hinit.
  apply mbind_inv in Hinit as ([] & l1 & Hcheck & Hinit).
  apply mbind_inv in Hinit as (b & l2 & _ & Hinit).
  apply mbind_inv in Hinit as ([] & l3 & _ & Hinit).
  apply mbind_inv in Hinit as (fwd & l4 & Hfwd & Hinit).
  apply mbind_inv in Hinit as (rev & l5 & Hrev & Hret).
  injection Hret as <- _.
  split.
  { unfold check_condition in Hcheck. case_bool_decide; [assumption | discriminate Hcheck]. }
  split; [reflexivity|].
  apply encoder_class_of_inv in Hfwd as (cell_f & Hcf & _ & _).
  apply encoder_class_of_inv in Hrev as (cell_r & Hcr & _ & _).
  exists cell_f, cell_r.
  unfold BiDirectionalRNNEncoder_get_rnn_cells; simpl. rewrite Hcf, Hcr. reflexivity.
Qed.

(** [get_encoder_rnn] refuses an odd [rnn_num_hidden] with the configuration
    error of the bidirectional encoder; nothing is logged and no cell is
    requested. *)
Theorem get_encoder_rnn_odd_num_hidden :
  forall (num_embed vocab_size num_layers rnn_num_hidden : Z) (cell_type : string)
         (residual : bool) (dropout forget_bias : float) (fused : bool)
         (log : list log_record),
    Z.odd rnn_num_hidden = true ->
    get_encoder_rnn num_embed vocab_size num_layers rnn_num_hidden cell_type residual
      dropout forget_bias fused log =
    (Raise (SockeyeError "num_hidden must be a multiple of 2 for BiDirectionalRNNEncoders."),
     log).
Proof.
  intros ne vs nl nh ct r d fb fused log Hodd.
  unfold get_encoder_rnn, Embedding_init, BatchMajor2TimeMajor_init,
    BiDirectionalRNNEncoder_init, check_condition.
  rewrite bool_decide_eq_false_2; [reflexivity|].
  rewrite Zmod_odd, Hodd. discriminate.
Qed.


(** The [residual] argument of [get_encoder_rnn] reaches only the stacked
    [RecurrentEncoder]: with the fused cell, or with at most one layer, two
    calls that differ in [residual] alone are the same computation. *)
Theorem get_encoder_rnn_residual_unused :
  forall (num_embed vocab_size num_layers rnn_num_hidden : Z) (cell_type : string)
         (residual1 residual2 : bool) (dropout forget_bias : float) (fused : bool)
         (log : list log_record),
    fused = true \/ num_layers <= 1 ->
    get_encoder_rnn num_embed vocab_size num_layers rnn_num_hidden cell_type residual1
      dropout forget_bias fused log =
    get_encoder_rnn num_embed vocab_size num_layers rnn_num_hidden cell_type residual2
      dropout forget_bias fused log.
Proof.
  intros ne vs nl nh ct r1 r2 d fb fused log [-> | Hnl].
  - reflexivity.
  - unfold get_encoder_rnn.
    rewrite (bool_decide_eq_false_2 (1 < nl)) by lia. reflexivity.
Qed.

(** ** More on the initializers *)

(** When [get_initializer] returns, its tag was one of the two orthogonal
    tags and one record was logged.  The mixed initializer lists the
    recurrent pattern first, then the lexicon, then the catch-all pattern with
    Xavier; the lexicon entry has no initializer when no lexicon is given. *)
Theorem get_initializer_success :
  forall (rnn_init_type : string) (lexicon : option NDArray) (log log' : list log_record)
         (mixed : Mixed),
    get_initializer rnn_init_type lexicon log = (Ok mixed, log') ->
    (rnn_init_type = RNN_INIT_ORTHOGONAL C \/ rnn_init_type = RNN_INIT_ORTHOGONAL_STACKED C)
    /\ patterns mixed = [".*h2h.*"; LEXICON_NAME C; ".*"]
    /\ initializers mixed =
       [ Some (if decide (rnn_init_type = RNN_INIT_ORTHOGONAL C) then Orthogonal
               else StackedOrthogonalInit 1.0%float "eye");
         LexiconInitializer <$> lexicon;
         Some (Xavier "in" 2.34%float) ]
    /\ exists msg, log' = (log ++ [mk_log INFO msg])%list.
Proof.
  intros t lexicon log log' mixed H. unfold get_initializer in H.
  destruct (decide (t = RNN_INIT_ORTHOGONAL C)) as [Ho|Ho].
  - injection H as <- <-. split; [left; exact Ho|].
    destruct lexicon; repeat split; eexists; reflexivity.
  - destruct (decide (t = RNN_INIT_ORTHOGONAL_STACKED C)) as [Hs|Hs].
    + injection H as <- <-. split; [right; exact Hs|].
      destruct lexicon; repeat split; eexists; reflexivity.
    + discriminate H.
Qed.

(** The shape checks of [StackedOrthogonalInit._init_weight] come before the
    test of [rand_type] and leave the state as it was: a weight that is not
    two-dimensional fails the first assertion, a second dimension of zero
    raises a division error in the modulo of the second assertion, and a
    first dimension that is no multiple of the second fails that assertion. *)
Theorem StackedOrthogonalInit_init_weight_shape_errors :
  forall (scale : float) (rand_type sym_name : string) (st : init_state)
         (stacked_dim base_dim : Z),
    (length (shape (st_arr st)) <> 2%nat ->
     StackedOrthogonalInit_init_weight scale rand_type sym_name st =
     (Raise (AssertionError "Only 2d weight matrices supported."), st))
    /\ (shape (st_arr st) = [stacked_dim; 0] ->
        StackedOrthogonalInit_init_weight scale rand_type sym_name st =
        (Raise (ZeroDivisionError "integer division or modulo by zero"), st))
    /\ (shape (st_arr st) = [stacked_dim; base_dim] ->
        base_dim <> 0 -> stacked_dim `mod` base_dim <> 0 ->
        StackedOrthogonalInit_init_weight scale rand_type sym_name st =
        (Raise (AssertionError
                  "Dim1 must be a multiple of dim2 (as weight = stacked square matrices)."),
         st)).
Proof.
  intros scale rand_type sym_name st stacked base.
  unfold StackedOrthogonalInit_init_weight, mbind, gets.
  split; [|split].
  - intros Hlen. unfold assert.
    rewrite bool_decide_eq_false_2 by lia. reflexivity.
  - intros Hshape. rewrite Hshape. reflexivity.
  - intros Hshape Hbase Hmod. rewrite Hshape. cbn [length nth].
    unfold lift, modulo, assert, ret.
    destruct (decide (base = 0)); [contradiction|].
    rewrite (bool_decide_eq_true_2 (Z.of_nat 2 = 2)) by reflexivity. cbv beta iota.
    rewrite (bool_decide_eq_false_2 (stacked `mod` base = 0)) by exact Hmod.
    reflexivity.
Qed.

Lemma length_concat_rows {A} (w : nat) (m : list (list A)) :
  Forall (fun r => length r = w) m -> length (concat m) = (length m * w)%nat.
Proof.
  induction 1 as [|r m Hr _ IH]; simpl; [reflexivity|].
  rewrite length_app, Hr, IH. reflexivity.
Qed.

Lemma length_eye_block (scale : float) (b : nat) :
  length (concat (scale_matrix scale (np_eye (Z.of_nat b)))) = (b * b)%nat.
Proof.
  unfold scale_matrix, np_eye, range.
  rewrite (length_concat_rows b).
  - rewrite !length_map, length_seqZ, Nat2Z.id. reflexivity.
  - apply Forall_fmap, Forall_fmap, Forall_true. intros i. simpl.
    rewrite !length_map, length_seqZ, Nat2Z.id. reflexivity.
Qed.

Lemma StackedOrthogonalInit_loop_eye (scale : float) (b m : nat) :
  forall (i : nat) (st : init_state) (pre old post : list float),
    values (st_arr st) = (pre ++ old ++ post)%list ->
    length pre = (i * b * b)%nat ->
    length old = (m * b * b)%nat ->
    StackedOrthogonalInit_loop scale "eye" (Z.of_nat b)
      (seqZ (Z.of_nat i) (Z.of_nat m)) st =
    (Ok tt,
     mk_init_state
       (mk_NDArray (shape (st_arr st))
          (pre ++ concat (replicate m (concat (scale_matrix scale (np_eye (Z.of_nat b)))))
               ++ post)%list)
       (st_rng st) (st_log st)).
Proof.
  induction m as [|m IH]; intros i st pre old post Hv Hpre Hold.
  - destruct old; [|discriminate Hold]. simpl in Hv.
    destruct st as [[sh v] g l]. simpl in *. subst v. reflexivity.
  - rewrite seqZ_cons by lia.
    replace (Z.succ (Z.of_nat i)) with (Z.of_nat (S i)) by lia.
    replace (Z.pred (Z.of_nat (S m))) with (Z.of_nat m) by lia.
    set (B := concat (scale_matrix scale (np_eye (Z.of_nat b)))).
    assert (HB : length B = (b * b)%nat) by apply length_eye_block.
    cbn [StackedOrthogonalInit_loop].
    destruct (decide ("eye" = "uniform")) as [Hne|_]; [discriminate Hne|].
    destruct (decide ("eye" = "normal")) as [Hne|_]; [discriminate Hne|].
    destruct (decide ("eye" = "eye")) as [_|Hne]; [|contradiction].
    unfold mbind at 1. unfold ret at 1. unfold mbind at 1.
    unfold assign_rows, modify. cbv beta iota. cbn [st_arr st_rng st_log shape values].
    fold B.
    assert (Hsplit : old = (take (b * b) old ++ drop (b * b) old)%list)
      by (symmetry; apply take_drop).
    set (old' := drop (b * b) old) in *.
    assert (Hold' : length old' = (m * b * b)%nat).
    { unfold old'. rewrite length_drop, Hold. simpl. lia. }
    assert (Htake : take (Z.to_nat (Z.of_nat i * Z.of_nat b * Z.of_nat b)) (values (st_arr st))
                    = pre).
    { rewrite <- !Nat2Z.inj_mul, Nat2Z.id, Hv. apply take_app_length'. symmetry. exact Hpre. }
    assert (Hdrop : drop (Z.to_nat ((Z.of_nat i * Z.of_nat b + Z.of_nat b) * Z.of_nat b))
                      (values (st_arr st)) = (old' ++ post)%list).
    { rewrite <- !Nat2Z.inj_mul, <- Nat2Z.inj_add, <- Nat2Z.inj_mul, Nat2Z.id, Hv.
      rewrite Hsplit at 1. rewrite <- !app_assoc.
      rewrite (app_assoc pre). apply drop_app_length'.
      rewrite length_app, Hpre, length_take, Hold. simpl. lia. }
    rewrite Htake, Hdrop.
    rewrite (IH (S i) _ (pre ++ B)%list old' post).
    + cbn [st_arr st_rng st_log shape replicate concat]. fold B.
      rewrite <- !app_assoc. reflexivity.
    + cbn [st_arr values]. rewrite <- !app_assoc. reflexivity.
    + rewrite length_app, Hpre, HB. simpl. lia.
    + exact Hold'.
Qed.

(** With [rand_type = "eye"], [StackedOrthogonalInit._init_weight] overwrites
    a weight of [k] square blocks of size [base_dim] with [k] copies of the
    scaled identity matrix, whatever the weight held before; the random state
    is not touched and one record is logged. *)
Theorem StackedOrthogonalInit_eye_fills_identity_blocks :
  forall (scale : float) (sym_name : string) (st : init_state) (k base_dim : Z),
    0 < base_dim -> 0 <= k ->
    shape (st_arr st) = [k * base_dim; base_dim] ->
    Z.of_nat (length (values (st_arr st))) = k * base_dim * base_dim ->
    exists msg,
      StackedOrthogonalInit_init_weight scale "eye" sym_name st =
      (Ok tt,
       mk_init_state
         (mk_NDArray [k * base_dim; base_dim]
            (concat (replicate (Z.to_nat k)
                       (concat (scale_matrix scale (np_eye base_dim))))))
         (st_rng st) (st_log st ++ [mk_log INFO msg])%list).
Proof.
  intros scale sym_name st k base Hbase Hk Hshape Hlen.
  destruct (Z_of_nat_complete base ltac:(lia)) as [b ->].
  destruct (Z_of_nat_complete k Hk) as [n ->].
  rewrite Nat2Z.id. eexists.
  unfold StackedOrthogonalInit_init_weight, mbind, gets.
  rewrite Hshape. cbn [length nth].
  unfold lift, modulo, floordiv, assert, ret.
  destruct (decide (Z.of_nat b = 0)); [lia|].
  rewrite Z.mod_mul, Z.div_mul by lia.
  rewrite (bool_decide_eq_true_2 (Z.of_nat 2 = 2)) by reflexivity. cbv beta iota.
  rewrite (bool_decide_eq_true_2 (0 = 0)) by reflexivity. cbv beta iota.
  unfold st_logger_info, modify.
  change (seqZ 0) with (seqZ (Z.of_nat 0)).
  rewrite (StackedOrthogonalInit_loop_eye scale b n 0 _ [] (values (st_arr st)) []).
  - cbn [st_arr st_rng st_log shape app]. rewrite Hshape, app_nil_r. reflexivity.
  - cbn [st_arr]. rewrite app_nil_r. reflexivity.
  - reflexivity.
  - nia.
Qed.

(** ** PositionalEncodingInitializer *)

Lemma length_np_arange_step2 (start stop : Z) :
  length (np_arange_step2 start stop) = Z.to_nat ((stop - start + 1) `div` 2).
Proof. unfold np_arange_step2. rewrite length_map. apply length_seqZ. Qed.

(** For an odd [max_seq_len] there is one even position more than there are
    odd positions, [np.hstack] refuses the two arrays and the weight is left
    as it was. *)
Theorem PositionalEncodingInitializer_odd_length_fails :
  forall (max_seq_len num_embed : Z) (name : string) (st : init_state),
    0 < max_seq_len -> Z.odd max_seq_len = true ->
    shape (st_arr st) = [max_seq_len; num_embed] ->
    PositionalEncodingInitializer_init_weight max_seq_len num_embed name st =
    (Raise (ValueError
              "all the input array dimensions except for the concatenation axis must match exactly"),
     st).
Proof.
  intros L D name st Hpos Hodd Hshape.
  unfold PositionalEncodingInitializer_init_weight, mbind, gets, assert.
  rewrite Hshape, bool_decide_eq_true_2 by reflexivity.
  unfold ret, lift, np_hstack, position_angles.
  rewrite bool_decide_eq_false_2; [reflexivity|].
  rewrite !length_map, !length_np_arange_step2.
  pose proof (Zmod_odd L) as Hm. rewrite Hodd in Hm.
  pose proof (Z.div_mod L 2 ltac:(lia)) as Hd.
  replace (L - 0 + 1) with ((L `div` 2 + 1) * 2) by lia.
  replace (L - 1 + 1) with L by lia.
  rewrite Z.div_mul by lia.
  assert (0 <= L `div` 2) by (apply Z.div_pos; lia). lia.
Qed.

Lemma concat_chunks {A} (rows width : nat) (l : list A) :
  length l = (rows * width)%nat -> concat (chunks rows width l) = l.
Proof.
  revert l. induction rows as [|rows IH]; intros l Hlen; simpl.
  - destruct l; [reflexivity | discriminate Hlen].
  - rewrite IH; [apply take_drop|]. rewrite length_drop, Hlen. simpl. lia.
Qed.

Lemma concat_hstack_interleaves {A} (F G R : Z -> list A) (h : nat) :
  (forall i, R (2 * i) = F i) -> (forall i, R (2 * i + 1) = G i) ->
  concat (zip_with app (map F (seqZ 0 (Z.of_nat h))) (map G (seqZ 0 (Z.of_nat h)))) =
  concat (map R (seqZ 0 (2 * Z.of_nat h))).
Proof.
  intros HF HG. induction h as [|h IH]; [reflexivity|].
  rewrite seqZ_S, !map_app. cbn [map].
  rewrite zip_with_app by (rewrite !length_map; reflexivity).
  rewrite concat_app, IH. cbn [zip_with concat].
  replace (2 * Z.of_nat (S h)) with (2 * Z.of_nat h + 2) by lia.
  rewrite seqZ_app by lia. rewrite map_app, concat_app.
  rewrite (seqZ_cons (0 + 2 * Z.of_nat h) 2) by lia.
  rewrite (seqZ_cons (Z.succ (0 + 2 * Z.of_nat h)) (Z.pred 2)) by lia.
  rewrite (seqZ_nil _ (Z.pred (Z.pred 2))) by lia. cbn [map concat].
  replace (0 + 2 * Z.of_nat h) with (2 * Z.of_nat h) by lia.
  replace (Z.succ (2 * Z.of_nat h)) with (2 * Z.of_nat h + 1) by lia.
  rewrite HF, HG. replace (0 + Z.of_nat h) with (Z.of_nat h) by lia.
  rewrite !app_nil_r. reflexivity.
Qed.

(** For an even [max_seq_len] and a weight of shape
    [(max_seq_len, num_embed)], the initializer overwrites the weight so that
    the row of position [p] holds, at channel [c], the sine of
    [p / 10000^(2c / num_embed)] when [p] is even and its cosine when [p] is
    odd: the parity of the position, not of the channel, selects the
    function.  The random state and the log are not touched. *)
Theorem PositionalEncodingInitializer_table :
  forall (max_seq_len num_embed : Z) (name : string) (st : init_state),
    0 <= max_seq_len -> Z.even max_seq_len = true -> 0 <= num_embed ->
    shape (st_arr st) = [max_seq_len; num_embed] ->
    PositionalEncodingInitializer_init_weight max_seq_len num_embed name st =
    (Ok tt,
     mk_init_state
       (mk_NDArray [max_seq_len; num_embed]
          (concat
             (map (fun pos =>
                     map (fun channel =>
                            (if Z.even pos then np_sin else np_cos)
                              (position_angle num_embed pos channel))
                         (seqZ 0 num_embed))
                  (seqZ 0 max_seq_len))))
       (st_rng st) (st_log st)).
Proof.
  intros L D name st HL Heven HD Hshape.
  pose proof (Zmod_even L) as Hm. rewrite Heven in Hm.
  pose proof (Z.div_mod L 2 ltac:(lia)) as Hd.
  destruct (Z_of_nat_complete (L `div` 2) ltac:(lia)) as [h Hh].
  assert (HLh : L = 2 * Z.of_nat h) by lia. clear Hm Hd Hh Heven.
  set (F := fun i : Z => map (fun c => np_sin (position_angle D (2 * i) c)) (seqZ 0 D)).
  set (G := fun i : Z => map (fun c => np_cos (position_angle D (2 * i + 1) c)) (seqZ 0 D)).
  set (R := fun pos : Z =>
              map (fun c => (if Z.even pos then np_sin else np_cos) (position_angle D pos c))
                  (seqZ 0 D)).
  assert (Hsin : map (map np_sin) (position_angles D (np_arange_step2 0 L) (seqZ 0 D))
                 = map F (seqZ 0 (Z.of_nat h))).
  { unfold position_angles, np_arange_step2.
    replace ((L - 0 + 1) `div` 2) with (Z.of_nat h)
      by (rewrite HLh; replace (2 * Z.of_nat h - 0 + 1) with (1 + Z.of_nat h * 2) by lia;
          rewrite Z.div_add by lia; reflexivity).
    rewrite !map_map. apply map_ext. intros i. unfold F. rewrite map_map.
    replace (0 + 2 * i) with (2 * i) by lia. reflexivity. }
  assert (Hcos : map (map np_cos) (position_angles D (np_arange_step2 1 L) (seqZ 0 D))
                 = map G (seqZ 0 (Z.of_nat h))).
  { unfold position_angles, np_arange_step2.
    replace ((L - 1 + 1) `div` 2) with (Z.of_nat h)
      by (rewrite HLh; replace (2 * Z.of_nat h - 1 + 1) with (Z.of_nat h * 2) by lia;
          rewrite Z.div_mul by lia; reflexivity).
    rewrite !map_map. apply map_ext. intros i. unfold G. rewrite map_map.
    replace (1 + 2 * i) with (2 * i + 1) by lia. reflexivity. }
  assert (Hflat : concat (zip_with app (map F (seqZ 0 (Z.of_nat h)))
                            (map G (seqZ 0 (Z.of_nat h))))
                  = concat (map R (seqZ 0 L))).
  { rewrite HLh. apply concat_hstack_interleaves; intros i; unfold R, F, G.
    - rewrite Z.even_mul. reflexivity.
    - rewrite Z.even_add, Z.even_mul. reflexivity. }
  assert (Hsize : length (concat (map R (seqZ 0 L))) = (Z.to_nat L * Z.to_nat D)%nat).
  { rewrite (length_concat_rows (Z.to_nat D)).
    - rewrite length_map, length_seqZ. reflexivity.
    - apply Forall_fmap, Forall_true. intros pos. unfold R. simpl.
      rewrite length_map. apply length_seqZ. }
  unfold PositionalEncodingInitializer_init_weight, mbind, gets, assert.
  rewrite Hshape, bool_decide_eq_true_2 by reflexivity.
  unfold ret, lift. rewrite Hsin, Hcos.
  unfold np_hstack. rewrite bool_decide_eq_true_2 by (rewrite !length_map; reflexivity).
  unfold np_reshape. rewrite Hflat.
  rewrite bool_decide_eq_true_2 by (rewrite Hsize; nia).
  unfold assign_all, modify.
  rewrite concat_chunks by exact Hsize.
  rewrite Hshape. reflexivity.
Qed.

End sockeye.

(** * Concrete runs

    For concrete runs a cell is identified by the prefix it is created with,
    and arrays hold integers. *)

Definition named_stacked_rnn
    : string -> Z -> Z -> float -> string -> bool -> float -> M string :=
  fun _ _ _ _ prefix _ _ => ret prefix.

Definition named_FusedRNNCell
    : Z -> Z -> string -> bool -> float -> float -> string -> M string :=
  fun _ _ _ _ _ _ prefix => ret prefix.

Definition source : Symbol string := sym_Variable "source" None None.

Definition source_length : Symbol string := sym_Variable "source_length" None None.

(** C3, counterexample.  Constructing an [EncoderSequence] from the empty
    list returns an object; it does not raise. *)
Lemma EncoderSequence_init_empty_succeeds :
  run (EncoderSequence_init (RNNCell := string) []) = Ok (mk_EncoderSequence [])
  /\ ~ (exists e, run (EncoderSequence_init (RNNCell := string) []) = Raise e).
Proof. split; [reflexivity|]. intros [e He]. discriminate He. Qed.

(** C2, on the code.  With [num_layers = 2] the loop constructs two groups,
    with prefixes ending in [_0_] and [_1_], and appends two functions.  When
    [encode] calls them the cells hold the objects of the second iteration:
    the first layer applies the group of index 1, not the group of index 0
    that was constructed for it, and both layers apply the same parameters. *)
Theorem TransformerEncoder_layers_share_last_group :
  let pre := "encoder_transformer_" in
  let g0 := new_group 512 8 2048 0%float pre 0 in
  let g1 := new_group 512 8 2048 0%float pre 1 in
  exists self,
    run (TransformerEncoder_init 512 2 8 2048 0%float pre) = Ok self
    /\ TransformerEncoder_layers self = [def_apply 0; def_apply 1]
    /\ g0 <> g1
    /\ call (TransformerEncoder_cells self) (def_apply 0) source source_length 5 =
       Ok (post_norm g1 source source_length 5)
    /\ call (TransformerEncoder_cells self) (def_apply 0) source source_length 5 <>
       Ok (post_norm g0 source source_length 5)
    /\ call (TransformerEncoder_cells self) (def_apply 1) source source_length 5 =
       call (TransformerEncoder_cells self) (def_apply 0) source source_length 5
    /\ TransformerEncoder_encode self source source_length 5 =
       Ok (post_norm g1 (post_norm g1 source source_length 5) source_length 5).
Proof.
  intros pre g0 g1. eexists. split; [reflexivity|].
  split; [reflexivity|].
  split; [discriminate|].
  split; [reflexivity|].
  split; [discriminate|].
  split; reflexivity.
Qed.

(** C1, witness: odd [num_hidden = 3] is refused, even [num_hidden = 4]
    yields an encoder whose halves have two hidden units each. *)
Lemma BiDirectionalRNNEncoder_init_checks_parity_witness :
  let forward_rnn :=
    RecurrentEncoder_Encoder (mk_RecurrentEncoder "TNC" 2 "encoder_birnn_forward_") in
  let reverse_rnn :=
    RecurrentEncoder_Encoder (mk_RecurrentEncoder "TNC" 2 "encoder_birnn_reverse_") in
  BiDirectionalRNNEncoder_init sockeye_constants 3 1 "encoder_birnn_" 0%float "TNC" "lstm"
    (RecurrentEncoder_class named_stacked_rnn) 0%float [] =
  (Raise (SockeyeError "num_hidden must be a multiple of 2 for BiDirectionalRNNEncoders."), [])
  /\ run (BiDirectionalRNNEncoder_init sockeye_constants 4 1 "encoder_birnn_" 0%float "TNC"
            "lstm" (RecurrentEncoder_class named_stacked_rnn) 0%float) =
     Ok (mk_BiDirectionalRNNEncoder 4 forward_rnn reverse_rnn "TNC" "encoder_birnn_").
Proof.
  intros forward_rnn reverse_rnn. split.
  - apply (proj1 (BiDirectionalRNNEncoder_init_checks_parity sockeye_constants 3 1
                    "encoder_birnn_" 0%float "TNC" "lstm"
                    (RecurrentEncoder_class named_stacked_rnn) 0%float
                    forward_rnn reverse_rnn)).
    reflexivity.
  - apply (proj2 (BiDirectionalRNNEncoder_init_checks_parity sockeye_constants 4 1
                    "encoder_birnn_" 0%float "TNC" "lstm"
                    (RecurrentEncoder_class named_stacked_rnn) 0%float
                    forward_rnn reverse_rnn)).
    + reflexivity.
    + discriminate.
    + intros log. reflexivity.
    + intros log. reflexivity.
Defined.

(** C5, witness: a batch-major bidirectional encoder of four hidden units
    built from [RecurrentEncoder]. *)
Lemma BiDirectionalRNNEncoder_encode_graph_witness :
  exists (cell_f cell_r : string) (batch_major : bool),
    let self :=
      mk_BiDirectionalRNNEncoder 4
        (RecurrentEncoder_Encoder (mk_RecurrentEncoder "TNC" 2 "encoder_birnn_forward_"))
        (RecurrentEncoder_Encoder (mk_RecurrentEncoder "TNC" 2 "encoder_birnn_reverse_"))
        BATCH_MAJOR "encoder_birnn_" in
    layout_is_batch_major BATCH_MAJOR = Ok batch_major
    /\ BiDirectionalRNNEncoder_get_rnn_cells self = Ok [cell_f; cell_r]
    /\ (let swap x := if batch_major then sym_swapaxes x 0 1 None else x in
        let x := swap source in
        let x_reverse := sym_SequenceReverse x source_length true in
        let hidden_forward := rnn_unroll cell_f 5 x true "TNC" in
        let hidden_reverse := rnn_unroll cell_r 5 x_reverse true "TNC" in
        BiDirectionalRNNEncoder_encode self source source_length 5 =
        Ok (swap (sym_concat hidden_forward
                    (sym_SequenceReverse hidden_reverse source_length true) 2
                    ("encoder_birnn_" ++ "_rnn"))))
    /\ get_num_hidden (BiDirectionalRNNEncoder_forward_rnn self) = Ok (4 `div` 2)
    /\ get_num_hidden (BiDirectionalRNNEncoder_reverse_rnn self) = Ok (4 `div` 2)
    /\ 4 `div` 2 + 4 `div` 2 = 4
    /\ BiDirectionalRNNEncoder_get_num_hidden self = Ok 4.
Proof.
  apply (BiDirectionalRNNEncoder_encode_graph sockeye_constants named_stacked_rnn
           named_FusedRNNCell false 4 1 "encoder_birnn_" 0%float BATCH_MAJOR "lstm" 0%float
           []
           [mk_log WARNING
              "Batch-major layout for encoder input. Consider using time-major layout for faster speed"]).
  reflexivity.
Defined.

(** C9, witness: the tags "xavier" and "gaussian" are not known; the weight
    has shape [(4, 2)], two blocks of size two. *)
Lemma unknown_initializer_tag_raises_witness :
  let draw : float -> float -> Z -> unit -> matrix * unit := fun _ _ _ g => ([], g) in
  let st := mk_init_state (mk_NDArray [4; 2] (replicate 8 0%float)) tt [] in
  get_initializer sockeye_constants "xavier" None [] =
  (Raise (ValueError "unknown rnn initialization type: xavier"), [])
  /\ exists msg,
       StackedOrthogonalInit_init_weight draw draw (fun m => m) 1.414%float "gaussian"
         "encoder_rnn_l0_h2h_weight" st =
       (Raise (ValueError "unknown rand_type gaussian"),
        mk_init_state (st_arr st) (st_rng st) (st_log st ++ [mk_log INFO msg])%list).
Proof.
  intros draw st.
  pose proof (unknown_initializer_tag_raises sockeye_constants draw draw (fun m => m)
                "xavier" None [] 1.414%float "gaussian" "encoder_rnn_l0_h2h_weight" st 4 2)
    as [Hget Hinit].
  split.
  - apply Hget; discriminate.
  - apply Hinit; [discriminate | discriminate | discriminate | reflexivity | lia | lia
                  | reflexivity].
Defined.

(** C8, witness: an embedding of width two over a vocabulary of ten words,
    a batch of two examples of length three, then one example of length
    501. *)
Definition example_embedding : Embedding (RNNCell := string) :=
  mk_Embedding 2 10 "source_embed_" 0%float (sym_Variable "source_embed_weight" None None)
    true.

Definition example_table : list (list Z) := map (fun i => [i; 1000 + i]) (seqZ 0 500).

Definition example_weight : list (list Z) := map (fun i => [10 * i; 10 * i + 1]) (seqZ 0 10).

Definition example_env (indices : list (list Z)) : gmap string (value (elt := Z)) :=
  <["source" := V2 indices]>
    (<["source_embed_weight" := V2 example_weight]>
       (<["source_embed_positional_encodings" := V2 example_table]> ∅)).

Lemma Embedding_encode_adds_table_prefix_witness :
  (exists out,
     Embedding_encode example_embedding source source_length 3 = Ok out
     /\ eval Z.add id (example_env [[1; 2; 3]; [4; 5; 0]]) out =
        Defined (V3 [ [[10; 1011]; [21; 1022]; [32; 1033]];
                      [[40; 1041]; [51; 1052]; [2; 1003]] ]))
  /\ (exists out,
        Embedding_encode example_embedding source source_length 501 = Ok out
        /\ forall v, eval Z.add id (example_env [replicate 501 1]) out <> Defined v).
Proof.
  split.
  - destruct (Embedding_encode_adds_table_prefix Z.add id example_embedding source
                source_length 3 2 (example_env [[1; 2; 3]; [4; 5; 0]]) example_table
                [ [[10; 11]; [20; 21]; [30; 31]]; [[40; 41]; [50; 51]; [0; 1]] ])
      as (out & Hout & Hin & _);
      [reflexivity | reflexivity | reflexivity | reflexivity | reflexivity |].
    exists out. split; [exact Hout|].
    apply Hin. lia.
  - destruct (Embedding_encode_adds_table_prefix Z.add id example_embedding source
                source_length 501 1 (example_env [replicate 501 1]) example_table
                [replicate 501 [10; 11]])
      as (out & Hout & _ & Hbeyond);
      [reflexivity | reflexivity | reflexivity | vm_compute; reflexivity
       | vm_compute; reflexivity |].
    exists out. split; [exact Hout|].
    apply Hbeyond. lia.
Defined.

(** ** Concrete runs of the further properties *)

Definition cells_stage (cells : list string) : Encoder string :=
  mk_Encoder (fun data _ _ => Ok data) (Ok 0) (Ok cells).

Lemma EncoderSequence_get_rnn_cells_concat_witness :
  EncoderSequence_get_rnn_cells
    (mk_EncoderSequence [cells_stage []; cells_stage ["f"; "r"]; cells_stage ["s"]]) =
  Ok (concat [[]; ["f"; "r"]; ["s"]]).
Proof.
  apply (@EncoderSequence_get_rnn_cells_concat string).
  repeat constructor.
Defined.

Lemma TransformerEncoder_nonpositive_layers_identity_witness :
  exists self : TransformerEncoder,
    run (TransformerEncoder_init 512 (-3) 8 2048 0%float "encoder_transformer_") = Ok self
    /\ TransformerEncoder_num_layers self = -3
    /\ TransformerEncoder_layers self = []
    /\ forall (data data_length : Symbol string) (seq_len : Z),
         TransformerEncoder_encode self data data_length seq_len = Ok data.
Proof.
  apply (@TransformerEncoder_nonpositive_layers_identity string). lia.
Defined.

Lemma BiDirectionalRNNEncoder_init_empty_layout_witness :
  BiDirectionalRNNEncoder_init sockeye_constants 4 1 "encoder_birnn_" 0%float "" "lstm"
    (RecurrentEncoder_class named_stacked_rnn) 0%float [] =
  (Raise (IndexError "string index out of range"), []).
Proof.
  apply (@BiDirectionalRNNEncoder_init_empty_layout sockeye_constants string). reflexivity.
Defined.

Lemma get_encoder_rnn_odd_num_hidden_witness :
  get_encoder_rnn sockeye_constants named_stacked_rnn named_FusedRNNCell 32 100 2 5 "lstm"
    false 0%float 0%float false [] =
  (Raise (SockeyeError "num_hidden must be a multiple of 2 for BiDirectionalRNNEncoders."),
   []).
Proof.
  apply (@get_encoder_rnn_odd_num_hidden sockeye_constants string). reflexivity.
Defined.


Lemma get_encoder_rnn_residual_unused_witness :
  get_encoder_rnn sockeye_constants named_stacked_rnn named_FusedRNNCell 32 100 3 6 "lstm"
    true 0%float 0%float true [] =
  get_encoder_rnn sockeye_constants named_stacked_rnn named_FusedRNNCell 32 100 3 6 "lstm"
    false 0%float 0%float true [].
Proof.
  apply (@get_encoder_rnn_residual_unused sockeye_constants string). left. reflexivity.
Defined.

Lemma get_initializer_success_witness :
  ("orthogonal_stacked" = RNN_INIT_ORTHOGONAL sockeye_constants
   \/ "orthogonal_stacked" = RNN_INIT_ORTHOGONAL_STACKED sockeye_constants)
  /\ patterns (mk_Mixed [".*h2h.*"; "lexicon"; ".*"]
                 [Some (StackedOrthogonalInit 1.0%float "eye"); None;
                  Some (Xavier "in" 2.34%float)])
     = [".*h2h.*"; LEXICON_NAME sockeye_constants; ".*"]
  /\ initializers (mk_Mixed [".*h2h.*"; "lexicon"; ".*"]
                     [Some (StackedOrthogonalInit 1.0%float "eye"); None;
                      Some (Xavier "in" 2.34%float)])
     = [ Some (if decide ("orthogonal_stacked" = RNN_INIT_ORTHOGONAL sockeye_constants)
               then Orthogonal else StackedOrthogonalInit 1.0%float "eye");
         LexiconInitializer <$> None;
         Some (Xavier "in" 2.34%float) ]
  /\ exists msg,
       [mk_log INFO "Stacked orthogonal RNN initializer"] = ([] ++ [mk_log INFO msg])%list.
Proof.
  apply (get_initializer_success sockeye_constants "orthogonal_stacked" None []).
  reflexivity.
Defined.

Lemma StackedOrthogonalInit_init_weight_shape_errors_witness :
  let draw : float -> float -> Z -> unit -> matrix * unit := fun _ _ _ g => ([], g) in
  let run_on sh :=
    StackedOrthogonalInit_init_weight draw draw (fun m => m) 1.0%float "eye" "w"
      (mk_init_state (mk_NDArray sh []) tt []) in
  run_on [4] =
    (Raise (AssertionError "Only 2d weight matrices supported."),
     mk_init_state (mk_NDArray [4] []) tt [])
  /\ run_on [4; 0] =
     (Raise (ZeroDivisionError "integer division or modulo by zero"),
      mk_init_state (mk_NDArray [4; 0] []) tt [])
  /\ run_on [5; 2] =
     (Raise (AssertionError
               "Dim1 must be a multiple of dim2 (as weight = stacked square matrices)."),
      mk_init_state (mk_NDArray [5; 2] []) tt []).
Proof.
  intros draw run_on. split; [|split].
  - apply (proj1 (@StackedOrthogonalInit_init_weight_shape_errors unit draw draw (fun m => m)
                    1.0%float "eye" "w" (mk_init_state (mk_NDArray [4] []) tt []) 0 0)).
    discriminate.
  - apply (proj1 (proj2 (@StackedOrthogonalInit_init_weight_shape_errors unit draw draw
                           (fun m => m) 1.0%float "eye" "w"
                           (mk_init_state (mk_NDArray [4; 0] []) tt []) 4 0))).
    reflexivity.
  - apply (proj2 (proj2 (@StackedOrthogonalInit_init_weight_shape_errors unit draw draw
                           (fun m => m) 1.0%float "eye" "w"
                           (mk_init_state (mk_NDArray [5; 2] []) tt []) 5 2)));
      [reflexivity | discriminate | discriminate].
Defined.

Lemma StackedOrthogonalInit_eye_fills_identity_blocks_witness :
  let draw : float -> float -> Z -> unit -> matrix * unit := fun _ _ _ g => ([], g) in
  let st := mk_init_state (mk_NDArray [2 * 2; 2] (replicate 8 7.0%float)) tt [] in
  exists msg,
    StackedOrthogonalInit_init_weight draw draw (fun m => m) 1.0%float "eye" "w" st =
    (Ok tt,
     mk_init_state
       (mk_NDArray [2 * 2; 2]
          (concat (replicate (Z.to_nat 2) (concat (scale_matrix 1.0%float (np_eye 2))))))
       (st_rng st) (st_log st ++ [mk_log INFO msg])%list).
Proof.
  intros draw st.
  apply (@StackedOrthogonalInit_eye_fills_identity_blocks unit draw draw (fun m => m)
           1.0%float "w" st 2 2); [lia | lia | reflexivity | reflexivity].
Defined.

Lemma PositionalEncodingInitializer_odd_length_fails_witness :
  let st := mk_init_state (mk_NDArray [3; 2] (replicate 6 0%float)) tt [] in
  PositionalEncodingInitializer_init_weight (fun x => x) (fun x => x) (fun x _ => x) 3 2
    "source_embed_positional_encodings" st =
  (Raise (ValueError
            "all the input array dimensions except for the concatenation axis must match exactly"),
   st).
Proof.
  intros st.
  apply (@PositionalEncodingInitializer_odd_length_fails unit);
    [lia | reflexivity | reflexivity].
Defined.

Lemma PositionalEncodingInitializer_table_witness :
  let st := mk_init_state (mk_NDArray [4; 2] (replicate 8 0%float)) tt [] in
  let np_sin : float -> float := fun x => x in
  let np_cos : float -> float := PrimFloat.opp in
  let np_power : float -> float -> float := fun x _ => x in
  PositionalEncodingInitializer_init_weight np_sin np_cos np_power 4 2
    "source_embed_positional_encodings" st =
  (Ok tt,
   mk_init_state
     (mk_NDArray [4; 2]
        (concat
           (map (fun pos =>
                   map (fun channel =>
                          (if Z.even pos then np_sin else np_cos)
                            (position_angle np_power 2 pos channel))
                       (seqZ 0 2))
                (seqZ 0 4))))
     (st_rng st) (st_log st)).
Proof.
  intros st np_sin np_cos np_power.
  apply (@PositionalEncodingInitializer_table unit np_sin np_cos np_power 4 2
           "source_embed_positional_encodings" st);
    [lia | reflexivity | lia | reflexivity].
Defined.
